(** * ogp-b: the ceremony monitoring bot ([src/api/index.py])

    A shallow embedding of the token registry, the remote status client,
    the per-token polling loop and the monitoring supervisor, together
    with the properties of the specification that concern them.

    Python [str] values are sequences of Unicode code points; they are
    modelled as lists of [N].  The two module-level dictionaries are
    finite maps keyed by the user id.  Coroutines are state-passing
    computations over the process state that either return or raise. *)

From Stdlib Require Import NArith ZArith Ascii String QArith.QArith_base.
From stdpp Require Import gmap list strings pretty.

Local Open Scope N_scope.
Local Open Scope nat_scope.

(** ** Python strings *)

Module PyStr.

Definition pystr := list N.

(** An ASCII literal as a Python string. *)
Fixpoint str (s : string) : pystr :=
  match s with
  | EmptyString => []
  | String a r => N_of_ascii a :: str r
  end.

(** Code points used below. *)
Definition NL : N := 10%N.
Definition DOT : N := 46%N.

(** [str.isspace] for one code point, the table [str.strip()] uses
    when it is called without argument. *)
Definition is_space (c : N) : bool :=
  ((9 <=? c) && (c <=? 13) || (28 <=? c) && (c <=? 32)
   || (c =? 133) || (c =? 160) || (c =? 5760)
   || (8192 <=? c) && (c <=? 8202)
   || (c =? 8232) || (c =? 8233) || (c =? 8239) || (c =? 8287)
   || (c =? 12288))%N.

(** [s.lstrip()] *)
Fixpoint lstrip (s : pystr) : pystr :=
  match s with
  | [] => []
  | c :: r => if is_space c then lstrip r else s
  end.

(** [s.rstrip()] *)
Definition rstrip (s : pystr) : pystr := reverse (lstrip (reverse s)).

(** [s.strip()] *)
Definition strip (s : pystr) : pystr := rstrip (lstrip s).

(** [s.split('\n')]: never empty, [''.split('\n') == ['']]. *)
Fixpoint split_lines (s : pystr) : list pystr :=
  match s with
  | [] => [[]]
  | c :: r =>
      if (c =? NL)%N then [] :: split_lines r
      else match split_lines r with
           | h :: t => (c :: h) :: t
           | [] => [[c]]
           end
  end.

(** [sep.join(parts)] for the separator ['\n']. *)
Fixpoint join_lines (parts : list pystr) : pystr :=
  match parts with
  | [] => []
  | [p] => p
  | p :: rest => p ++ NL :: join_lines rest
  end.

(** [s[-n:]] for [n > 0]. *)
Definition last_chars (n : nat) (s : pystr) : pystr := drop (length s - n) s.

(** [str(n)] for a non-negative integer. *)
Definition str_of_nat (n : nat) : pystr := str (pretty n).

(** [str(z)] for an integer. *)
Definition str_of_Z (z : Z) : pystr := str (pretty z).

(** [needle in hay] on strings: a contiguous occurrence. *)
Definition occurs_in (needle hay : pystr) : Prop :=
  ∃ a b, hay = a ++ needle ++ b.

Fixpoint is_prefix_b (p s : pystr) : bool :=
  match p, s with
  | [], _ => true
  | _ :: _, [] => false
  | x :: p', y :: s' => (x =? y)%N && is_prefix_b p' s'
  end.

Fixpoint occurs_in_b (needle hay : pystr) : bool :=
  is_prefix_b needle hay
  || match hay with
     | [] => false
     | _ :: hay' => occurs_in_b needle hay'
     end.

End PyStr.
Import PyStr.

(** ** Redacted token form *)

(** [format_token], line 50. *)
Definition format_token (token : pystr) : pystr :=
  if decide (6 < length token) then str "..." ++ last_chars 6 token else token.

(** ** Python values and exceptions *)

(** What [response.json()] can produce. A dict is kept as the list of
    its items, keys distinct. *)
#[local] Unset Elimination Schemes.
Inductive pyval :=
  | PNone
  | PBool (b : bool)
  | PInt (z : Z)
  | PFloat (q : Q)
  | PStr (s : pystr)
  | PList (l : list pyval)
  | PDict (items : list (pystr * pyval)).
#[local] Set Elimination Schemes.

(** [bool(v)], the test of [if v]. *)
Definition truthy (v : pyval) : bool :=
  match v with
  | PNone => false
  | PBool b => b
  | PInt z => negb (z =? 0)%Z
  | PFloat q => negb (Qnum q =? 0)%Z
  | PStr s => negb (bool_decide (s = []))
  | PList l => match l with [] => false | _ => true end
  | PDict d => match d with [] => false | _ => true end
  end.

Inductive exc_class :=
  | CancelledError      (* asyncio.CancelledError, a BaseException *)
  | KeyboardInterrupt   (* a BaseException *)
  | NameError
  | AttributeError
  | ClientError         (* aiohttp transport errors *)
  | ContentTypeError    (* aiohttp: body is not JSON *)
  | JSONDecodeError
  | TelegramError.      (* telegram.error.TelegramError *)

Record pyexc := mkExc { exc_class_of : exc_class; exc_text : pystr }.

(** [isinstance(e, Exception)] *)
Definition is_Exception (e : pyexc) : bool :=
  match exc_class_of e with
  | CancelledError | KeyboardInterrupt => false
  | _ => true
  end.

(** [isinstance(e, asyncio.CancelledError)] *)
Definition is_CancelledError (e : pyexc) : bool :=
  match exc_class_of e with
  | CancelledError => true
  | _ => false
  end.

(** ** Process state *)

Inductive level := INFO | WARNING | ERROR.

(** One call of [bot.send_message] that went through. *)
Record message := mkMessage {
  msg_to : Z;
  msg_text : pystr;
  msg_parse_mode : option pystr }.

(** How a coroutine run ends: it returns, raises, or is left suspended
    at an [await] whose answer has not arrived yet. *)
Inductive result (A : Type) :=
  | Ret (a : A)
  | Raise (e : pyexc)
  | Blocked.
Arguments Ret {A} a.
Arguments Raise {A} e.
Arguments Blocked {A}.

Inductive task_status :=
  | Created                      (* scheduled, has not run yet *)
  | Suspended                    (* inside the loop, at an await *)
  | Done (r : result unit).      (* returned or raised *)

(** An [asyncio.Task] running [monitor_token(bot, user_id, token)]. *)
Record Task := mkTask {
  task_user : Z;
  task_token : pystr;
  task_status_of : task_status;
  must_cancel : bool }.

Record State := mkState {
  user_tokens : gmap Z (list pystr);      (* line 27 *)
  monitoring_tasks : gmap Z (list nat);   (* line 28, tasks by their id *)
  tasks : list Task;                      (* the event loop's tasks; id = position *)
  outbox : list message;
  log : list (level * pystr) }.

Definition set_user_tokens (f : gmap Z (list pystr) → gmap Z (list pystr)) (st : State) : State :=
  mkState (f (user_tokens st)) (monitoring_tasks st) (tasks st) (outbox st) (log st).
Definition set_monitoring_tasks (f : gmap Z (list nat) → gmap Z (list nat)) (st : State) : State :=
  mkState (user_tokens st) (f (monitoring_tasks st)) (tasks st) (outbox st) (log st).
Definition set_tasks (f : list Task → list Task) (st : State) : State :=
  mkState (user_tokens st) (monitoring_tasks st) (f (tasks st)) (outbox st) (log st).
Definition set_outbox (f : list message → list message) (st : State) : State :=
  mkState (user_tokens st) (monitoring_tasks st) (tasks st) (f (outbox st)) (log st).
Definition set_log (f : list (level * pystr) → list (level * pystr)) (st : State) : State :=
  mkState (user_tokens st) (monitoring_tasks st) (tasks st) (outbox st) (f (log st)).

Definition initial_state : State := mkState ∅ ∅ [] [] [].

(** ** Coroutines *)

Module Co.

Definition Co (A : Type) : Type := State → result A * State.

Definition ret {A} (a : A) : Co A := λ st, (Ret a, st).
Definition raise {A} (e : pyexc) : Co A := λ st, (Raise e, st).
Definition blocked {A} : Co A := λ st, (Blocked, st).

Definition bind {A B} (m : Co A) (k : A → Co B) : Co B :=
  λ st, match m st with
        | (Ret a, st') => k a st'
        | (Raise e, st') => (Raise e, st')
        | (Blocked, st') => (Blocked, st')
        end.

(** [try: body  except ...:] where [handler e] is [Some h] when one of
    the clauses matches [e]; otherwise [e] goes on. An exception raised
    by [h] itself is not offered to the clauses again. *)
Definition try_except {A} (body : Co A) (handler : pyexc → option (Co A)) : Co A :=
  λ st, match body st with
        | (Raise e, st') =>
            match handler e with
            | Some h => h st'
            | None => (Raise e, st')
            end
        | r => r
        end.

(** [logger.info / warning / error] *)
Definition logger (lv : level) (text : pystr) : Co unit :=
  λ st, (Ret tt, set_log (λ l, l ++ [(lv, text)]) st).

End Co.
Import Co.

Notation "'let*' x ':=' m 'in' k" := (bind m (λ x, k))
  (at level 10, x name, m at level 100, k at level 200, only parsing).
Notation "m ;;; k" := (bind m (λ _, k))
  (at level 100, right associativity, only parsing).

(** ** Remote status client *)

(** What [response.json()] does with the body of a 200 response. *)
Inductive json_result :=
  | JsonValue (v : pyval)
  | JsonError (e : pyexc).

(** What the remote service does with one GET: entering the session or
    the request raises, or a response with a status arrives. *)
Inductive http_reply :=
  | HttpRaises (e : pyexc)
  | HttpResponse (status : Z) (body : json_result).

(** [except Exception as e:] *)
Definition except_Exception {A} (h : pyexc → Co A) : pyexc → option (Co A) :=
  λ e, if is_Exception e then Some (h e) else None.

(** [get_position], lines 65-82. *)
Definition get_position (token : pystr) (reply : http_reply) : Co pyval :=
  let ts := format_token token in
  try_except
    (match reply with
     | HttpRaises e => raise e
     | HttpResponse status body =>
         if (status =? 200)%Z then
           match body with
           | JsonValue v => ret v
           | JsonError e => raise e
           end
         else
           logger WARNING (str "[" ++ ts ++ str "] Position error: HTTP " ++ str_of_Z status) ;;;
           ret PNone
     end)
    (except_Exception (λ e,
       logger ERROR (str "[" ++ ts ++ str "] Position error: " ++ exc_text e) ;;;
       ret PNone)).

(** [ping_server], lines 85-101. *)
Definition ping_server (token : pystr) (reply : http_reply) : Co pyval :=
  let ts := format_token token in
  try_except
    (match reply with
     | HttpRaises e => raise e
     | HttpResponse status body =>
         if (status =? 200)%Z then
           match body with
           | JsonValue v => ret v
           | JsonError e => raise e
           end
         else
           logger WARNING (str "[" ++ ts ++ str "] Ping error: HTTP " ++ str_of_Z status) ;;;
           ret PNone
     end)
    (except_Exception (λ e,
       logger ERROR (str "[" ++ ts ++ str "] Ping error: " ++ exc_text e) ;;;
       ret PNone)).

(** ** Notification sink *)

(** What the chat platform does with one outbound message. *)
Inductive send_result :=
  | Delivered
  | Rejected (e : pyexc).

(** [bot.send_message(user_id, text, parse_mode=...)] *)
Definition send_message (r : send_result) (user_id : Z) (text : pystr)
    (parse_mode : option pystr) : Co unit :=
  match r with
  | Delivered => λ st, (Ret tt, set_outbox (λ o, o ++ [mkMessage user_id text parse_mode]) st)
  | Rejected e => raise e
  end.

(** ** The polling loop *)

(** What the outside world answers during one iteration of the loop. *)
Record iter_env := mkEnv {
  ping_reply : http_reply;
  position_reply : http_reply;
  send_reply : send_result }.

Fixpoint assoc (key : pystr) (items : list (pystr * pyval)) : option pyval :=
  match items with
  | [] => None
  | (k, v) :: rest => if decide (k = key) then Some v else assoc key rest
  end.

(** [data.get(key, default)]: only a dict has the method. *)
Definition py_get (data : pyval) (key : pystr) (dflt : pyval) : Co pyval :=
  match data with
  | PDict items => ret (default dflt (assoc key items))
  | _ => raise (mkExc AttributeError (str "object has no attribute 'get'"))
  end.

Section Formatting.

(** [repr] of floats, lists and dicts is the interpreter's; the loop
    only passes it on. *)
Variable py_repr : pyval → pystr.

(** An f-string replacement field [{v}]. *)
Definition py_format (v : pyval) : pystr :=
  match v with
  | PStr s => s
  | PNone => str "None"
  | PBool true => str "True"
  | PBool false => str "False"
  | PInt z => str_of_Z z
  | _ => py_repr v
  end.

(** [data.get(key, 'N/A') if data else 'Error'] *)
Definition status_field (data : pyval) (key : pystr) : Co pyval :=
  if truthy data then py_get data key (PStr (str "N/A")) else ret (PStr (str "Error")).

(** The status line of lines 111-115. *)
Definition status_line (token : pystr) (status position : pyval) : pystr :=
  [8226%N] ++ str " *" ++ format_token token ++ str "*:" ++ [NL]
  ++ str "  Status: `" ++ py_format status ++ str "`" ++ [NL]
  ++ str "  Position: `" ++ py_format position ++ str "`".

(** The text sent at lines 117-119. *)
Definition status_update (status : pystr) : pystr :=
  [128260%N] ++ str " Status Update:" ++ [NL] ++ status.

(** The body of [while True:], lines 108-119. *)
Definition monitor_iteration (user_id : Z) (token : pystr) (env : iter_env) : Co unit :=
  let* ping_data := ping_server token (ping_reply env) in
  let* position_data := get_position token (position_reply env) in
  let* st_field := status_field ping_data (str "status") in
  let* pos_field := status_field position_data (str "behind") in
  let status := status_line token st_field pos_field in
  send_message (send_reply env) user_id (status_update status) (Some (str "Markdown")).

(** [while True: body] against the answers that have arrived so far:
    when they are used up the coroutine is suspended, it never leaves
    the loop by returning. *)
Fixpoint while_True (body : iter_env → Co unit) (envs : list iter_env) : Co unit :=
  match envs with
  | [] => blocked
  | env :: rest => body env ;;; while_True body rest
  end.

(** [traceback.format_exc()]: the module [traceback] is not among the
    imports of lines 1-13, so evaluating the name raises. *)
Definition traceback_format_exc : Co pystr :=
  raise (mkExc NameError (str "name 'traceback' is not defined")).

(** The text sent at lines 125-128. *)
Definition crash_notice (token : pystr) : pystr :=
  [10060%N] ++ str " Monitoring crashed for " ++ format_token token ++ str " - restart required".

(** The two [except] clauses of lines 121-128, the first that matches. *)
Definition monitor_handlers (user_id : Z) (token : pystr) (crash_send : send_result)
    : pyexc → option (Co unit) :=
  λ e,
    if is_CancelledError e then
      Some (logger INFO (str "Monitoring stopped for token " ++ format_token token))
    else if is_Exception e then
      Some (let* tb := traceback_format_exc in
            logger ERROR (str "Critical failure: " ++ tb) ;;;
            send_message crash_send user_id (crash_notice token) None)
    else None.

(** [monitor_token], lines 104-128, run against the answers [envs];
    [crash_send] is what the chat platform would do with the crash
    notice. *)
Definition monitor_token (user_id : Z) (token : pystr) (envs : list iter_env)
    (crash_send : send_result) : Co unit :=
  try_except (while_True (monitor_iteration user_id token) envs)
             (monitor_handlers user_id token crash_send).

End Formatting.

(** ** Token registry *)

(** [[t.strip() for t in text.split('\n') if t.strip()]], line 266. *)
Definition submitted_tokens (text : pystr) : list pystr :=
  omap (λ t, if bool_decide (strip t = []) then None else Some (strip t))
       (split_lines text).

Definition NO_VALID_TOKENS : pystr := [10060%N] ++ str " No valid tokens found.".

Definition added_text (added total : nat) : pystr :=
  [9989%N] ++ str " Added " ++ str_of_nat added ++ str " tokens" ++ [NL]
  ++ str "Total: " ++ str_of_nat total.

(** [process_tokens], lines 263-276: the new state and the reply. *)
Definition process_tokens (user_id : Z) (text : pystr) (st : State) : pystr * State :=
  let tokens := submitted_tokens text in
  match tokens with
  | [] => (NO_VALID_TOKENS, st)
  | _ =>
      let st' := set_user_tokens
                   (λ m, <[user_id := default [] (m !! user_id) ++ tokens]> m) st in
      (added_text (length tokens) (length (default [] (user_tokens st' !! user_id))), st')
  end.

(** [user_tokens.get(user_id, [])] *)
Definition list_tokens (user_id : Z) (st : State) : list pystr :=
  default [] (user_tokens st !! user_id).

Definition INVALID_SELECTION : pystr := [10060%N] ++ str " Invalid token selection".

Definition removed_text (removed : pystr) : pystr :=
  [9989%N] ++ str " Removed token: " ++ format_token removed.

(** The [remove_] branch of [handle_token_actions], lines 230-237, for
    the index read from the callback data. *)
Definition handle_token_actions_remove (index : Z) (user_id : Z) (st : State) : pystr * State :=
  let tokens := list_tokens user_id st in
  if decide (0 ≤ index < Z.of_nat (length tokens))%Z then
    match tokens !! Z.to_nat index with
    | Some removed =>
        (removed_text removed,
         set_user_tokens (<[user_id := delete (Z.to_nat index) tokens]>) st)
    | None => (INVALID_SELECTION, st)
    end
  else (INVALID_SELECTION, st).

(** ** Monitor supervisor *)

Definition ALREADY_RUNNING : pystr := [128276%N] ++ str " Monitoring already running".
Definition STARTED : pystr := [128640%N] ++ str " Started continuous monitoring for all tokens".
Definition STOPPED : pystr := [128721%N] ++ str " Stopped monitoring".
Definition NO_ACTIVE_MONITORING : pystr := [10060%N] ++ str " No active monitoring".

(** [asyncio.create_task(monitor_token(bot, user_id, token))]: the task
    is scheduled and its handle returned. *)
Definition create_task (user_id : Z) (token : pystr) (st : State) : nat * State :=
  (length (tasks st), set_tasks (λ ts, ts ++ [mkTask user_id token Created false]) st).

(** [start_monitoring], lines 296-308. *)
Definition start_monitoring (user_id : Z) (st : State) : pystr * State :=
  if decide (is_Some (monitoring_tasks st !! user_id)) then (ALREADY_RUNNING, st)
  else
    let st0 := set_monitoring_tasks (<[user_id := []]>) st in
    let st1 :=
      foldl (λ s token,
               let '(task, s') := create_task user_id token s in
               set_monitoring_tasks (alter (λ l, l ++ [task]) user_id) s')
            st0 (list_tokens user_id st) in
    (STARTED, st1).

(** [task.cancel()]: a task that is done is left alone, any other is
    marked and gets [CancelledError] when it next runs. *)
Definition request_cancel (t : Task) : Task :=
  match task_status_of t with
  | Done _ => t
  | _ => mkTask (task_user t) (task_token t) (task_status_of t) true
  end.

Definition cancel (task : nat) (st : State) : State :=
  set_tasks (alter request_cancel task) st.

(** [stop_monitoring], lines 311-318. *)
Definition stop_monitoring (user_id : Z) (st : State) : pystr * State :=
  match monitoring_tasks st !! user_id with
  | Some handles =>
      let st1 := foldl (λ s task, cancel task s) st handles in
      (STOPPED, set_monitoring_tasks (delete user_id) st1)
  | None => (NO_ACTIVE_MONITORING, st)
  end.

(** The handles tracked for a user. *)
Definition handles (user_id : Z) (st : State) : list nat :=
  default [] (monitoring_tasks st !! user_id).

(** A task that can still run. *)
Definition active (t : Task) : bool :=
  match task_status_of t with
  | Done _ => false
  | _ => negb (must_cancel t)
  end.

Definition is_done (t : Task) : bool :=
  match task_status_of t with
  | Done _ => true
  | _ => false
  end.

(** ** The event loop *)

Definition cancelled : pyexc := mkExc CancelledError [].

Section EventLoop.

Variable py_repr : pyval → pystr.

Definition finish (task : nat) (r : result unit) (st : State) : State :=
  set_tasks (alter (λ t, mkTask (task_user t) (task_token t)
                           (match r with Blocked => Suspended | _ => Done r end)
                           false) task) st.

(** The event loop runs a task once: from where it is suspended to
    the end of the iteration, against the answers [env]. A pending
    cancellation is thrown into the coroutine instead: at its first
    line if it has not started, at the await it is suspended at
    otherwise. *)
Definition run_task (task : nat) (env : iter_env) (crash_send : send_result)
    (st : State) : State :=
  match tasks st !! task with
  | None => st
  | Some t =>
      let resume env :=
        let '(r, st') :=
          monitor_token py_repr (task_user t) (task_token t) [env] crash_send st in
        finish task r st' in
      match task_status_of t with
      | Done _ => st
      | Created =>
          if must_cancel t then finish task (Raise cancelled) st
          else resume env
      | Suspended =>
          if must_cancel t
          then resume (mkEnv (HttpRaises cancelled) (position_reply env) (send_reply env))
          else resume env
      end
  end.

(** What can happen to the process. *)
Inductive event :=
  | AddTokens (user_id : Z) (text : pystr)
  | RemoveToken (user_id : Z) (index : Z)
  | StartMonitoring (user_id : Z)
  | StopMonitoring (user_id : Z)
  | RunTask (task : nat) (env : iter_env) (crash_send : send_result).

Definition exec (ev : event) (st : State) : State :=
  match ev with
  | AddTokens u text => (process_tokens u text st).2
  | RemoveToken u i => (handle_token_actions_remove i u st).2
  | StartMonitoring u => (start_monitoring u st).2
  | StopMonitoring u => (stop_monitoring u st).2
  | RunTask task env crash_send => run_task task env crash_send st
  end.

Definition exec_all (evs : list event) (st : State) : State :=
  foldl (λ s ev, exec ev s) st evs.

End EventLoop.

(** ** Chat surface *)

(** [InlineKeyboardButton(text, callback_data=...)] *)
Record button := mkButton { btn_text : pystr; btn_data : pystr }.

(** What a handler puts on the screen: a text and, with
    [reply_markup=InlineKeyboardMarkup(rows)], the rows of buttons. *)
Record screen := mkScreen {
  scr_text : pystr;
  scr_markup : option (list (list button)) }.

(** [AWAITING_TOKENS], line 22, and [ConversationHandler.END]. *)
Definition AWAITING_TOKENS : Z := 0.
Definition END : Z := (-1).

(** [query.edit_message_text] and [message.reply_text]: the chat
    platform shows it or refuses. *)
Definition show (r : send_result) (s : screen) : Co screen :=
  match r with
  | Delivered => ret s
  | Rejected e => raise e
  end.

(** [get_main_menu_markup], lines 348-359; the keyboard [start] builds
    at lines 133-145 is the same. *)
Definition get_main_menu_markup : list (list button) :=
  [ [mkButton (str "Tokens") (str "tokens");
     mkButton (str "Position") (str "position")];
    [mkButton (str "Start Monitoring") (str "start_monitoring");
     mkButton (str "Stop Monitoring") (str "stop_monitoring")];
    [mkButton (str "About") (str "about")] ].

(** [get_token_menu_markup], lines 340-345; the keyboard of
    [show_token_menu], lines 188-192, is the same. *)
Definition get_token_menu_markup : list (list button) :=
  [ [mkButton (str "Add Tokens") (str "add_tokens");
     mkButton (str "Remove Tokens") (str "remove_tokens");
     mkButton (str "Token Info") (str "token_info")];
    [mkButton (str "Main Menu") (str "back_to_main")] ].

(** [start], lines 132-149. *)
Definition start (r : send_result) : Co screen :=
  show r (mkScreen ([128269%N] ++ str " Silent Protocol Monitoring Bot" ++ [NL]
                    ++ str "Choose an option:")
                   (Some get_main_menu_markup)).

(** [show_token_menu], lines 187-193. *)
Definition show_token_menu (r : send_result) : Co screen :=
  show r (mkScreen ([128273%N] ++ str " Token Management") (Some get_token_menu_markup)).

(** The rows [[button(f"{verb} {format_token(token)}", f"{action}{i}")]
    for i, token in enumerate(tokens)]. *)
Definition token_rows (verb action : pystr) (tokens : list pystr) : list (list button) :=
  imap (λ i token, [mkButton (verb ++ str " " ++ format_token token)
                             (action ++ str_of_nat i)]) tokens.

(** [show_remove_menu], lines 196-208. *)
Definition show_remove_menu (r : send_result) (user_id : Z) : Co screen :=
  λ st,
    let tokens := list_tokens user_id st in
    match tokens with
    | [] => show r (mkScreen ([10060%N] ++ str " No tokens to remove") None) st
    | _ =>
        show r (mkScreen (str "Select token to remove:")
                  (Some (token_rows (str "Remove") (str "remove_") tokens
                         ++ [[mkButton (str "Back") (str "tokens")]]))) st
    end.

(** [show_info_menu], lines 211-223. *)
Definition show_info_menu (r : send_result) (user_id : Z) : Co screen :=
  λ st,
    let tokens := list_tokens user_id st in
    match tokens with
    | [] => show r (mkScreen ([10060%N] ++ str " No tokens to view") None) st
    | _ =>
        show r (mkScreen (str "Select token to view:")
                  (Some (token_rows (str "Info") (str "info_") tokens
                         ++ [[mkButton (str "Back") (str "tokens")]]))) st
    end.

(** [show_about], lines 325-332. *)
Definition show_about (r : send_result) : Co screen :=
  show r (mkScreen ([129302%N] ++ str " Silent Protocol Monitor Bot" ++ [NL; NL]
                    ++ str "Track your ceremony participation status" ++ [NL]
                    ++ str "Developed by DEFIZO")
                   (Some [[mkButton (str "Main Menu") (str "back_to_main")]])).

(** [return_to_main], lines 321-322. *)
Definition return_to_main (r : send_result) : Co screen := start r.

(** [cancel], lines 335-337. *)
Definition cancel_conversation (r : send_result) : Co (screen * Z) :=
  let* s := show r (mkScreen ([10060%N] ++ str " Operation cancelled") None) in
  ret (s, END).

(** [get_headers], lines 54-62. *)
Definition get_headers (token : pystr) : list (pystr * pystr) :=
  [ (str "Authorization", str "Bearer " ++ token);
    (str "Accept", str "*/*");
    (str "User-Agent",
     str "Mozilla/5.0 (Windows NT 10.0; Win64; x64) AppleWebKit/537.36 (KHTML, like Gecko) Chrome/131.0.0.0 Safari/537.36") ].

(** What the outside world answers during one button click: the
    acknowledgement of [query.answer()], the remote replies in the order
    they are asked for, and what the chat platform does with the
    message the handler shows or sends. *)
Record click_env := mkClick {
  answer_reply : send_result;
  remote_replies : list http_reply;
  show_reply : send_result }.

(** [query.answer()], line 155. *)
Definition answer (r : send_result) : Co unit :=
  match r with
  | Delivered => ret tt
  | Rejected e => raise e
  end.

(** A value or an exception that is already there, as a coroutine. *)
Definition lift {A} (r : result A) : Co A := λ st, (r, st).

(** [if user_id not in user_tokens: user_tokens[user_id] = []],
    lines 158-159. *)
Definition ensure_user (user_id : Z) : Co unit :=
  λ st,
    match user_tokens st !! user_id with
    | Some _ => (Ret tt, st)
    | None => (Ret tt, set_user_tokens (<[user_id := []]>) st)
    end.

Definition NO_TOKENS_REGISTERED : pystr :=
  [9888%N; 65039%N] ++ str " No tokens registered".

(** The first line of the position report, line 285. *)
Definition REPORT_HEADER : pystr := [128202%N] ++ str " Current Positions:".

Section ChatSurface.

(** [repr] and [int] are the interpreter's: [py_int s] is the integer
    [int(s)] returns or the exception it raises. *)
Variable py_repr : pyval → pystr.
Variable py_int : pystr → result Z.

(** [show_token_info], lines 247-260, against the two remote replies. *)
Definition show_token_info (ping_r position_r : http_reply) (r : send_result)
    (token : pystr) : Co screen :=
  let* ping := ping_server token ping_r in
  let* position := get_position token position_r in
  let* st_field := status_field ping (str "status") in
  let* pos_field := status_field position (str "behind") in
  let text :=
    [ [128272%N] ++ str " Token: " ++ format_token token;
      [128994%N] ++ str " Status: " ++ py_format py_repr st_field;
      [128204%N] ++ str " Position: " ++ py_format py_repr pos_field ] in
  show r (mkScreen (join_lines text)
                   (Some [[mkButton (str "Back") (str "token_info")]])).

(** [position.get('behind', 'Error') if position else 'Error'], line 290. *)
Definition behind_field (position : pyval) : Co pyval :=
  if truthy position then py_get position (str "behind") (PStr (str "Error"))
  else ret (PStr (str "Error")).

(** The loop of lines 286-291 against the replies that have arrived. *)
Fixpoint positions_loop (tokens : list pystr) (replies : list http_reply)
    (response : list pystr) : Co (list pystr) :=
  match tokens with
  | [] => ret response
  | token :: rest =>
      match replies with
      | [] => blocked
      | reply :: more =>
          let* position := get_position token reply in
          let display := format_token token in
          let* behind := behind_field position in
          positions_loop rest more
            (response ++ [[8226%N] ++ str " " ++ display ++ str ": "
                          ++ py_format py_repr behind])
      end
  end.

(** [fetch_positions], lines 279-293. *)
Definition fetch_positions (env : click_env) (user_id : Z) : Co unit :=
  λ st,
    match list_tokens user_id st with
    | [] => send_message (show_reply env) user_id NO_TOKENS_REGISTERED None st
    | tokens =>
        (let* response :=
           positions_loop tokens (remote_replies env) [REPORT_HEADER] in
         send_message (show_reply env) user_id (join_lines response) None) st
    end.

(** [handle_token_actions], lines 226-244. *)
Definition handle_token_actions (env : click_env) (data : pystr) (user_id : Z)
    : Co (option screen) :=
  λ st,
    let tokens := list_tokens user_id st in
    if is_prefix_b (str "remove_") data then
      (let* index := lift (py_int (drop 7 data)) in
       let* text := (λ st, let '(text, st') := handle_token_actions_remove index user_id st in
                           (Ret text, st')) in
       let* s := show (show_reply env) (mkScreen text None) in
       ret (Some s)) st
    else if is_prefix_b (str "info_") data then
      (let* index := lift (py_int (drop 5 data)) in
       if decide (0 ≤ index < Z.of_nat (length tokens))%Z then
         match tokens !! Z.to_nat index, remote_replies env with
         | Some token, ping_r :: position_r :: _ =>
             let* s := show_token_info ping_r position_r (show_reply env) token in
             ret (Some s)
         | Some token, [ping_r] => ping_server token ping_r ;;; blocked
         | _, _ => blocked
         end
       else
         let* s := show (show_reply env) (mkScreen INVALID_SELECTION None) in
         ret (Some s)) st
    else (Ret None, st).

(** The text of lines 164-165. *)
Definition SEND_TOKENS : pystr :=
  [128229%N] ++ str " Send tokens (one per line):" ++ [NL] ++ str "Example:" ++ [NL]
  ++ str "token1" ++ [NL] ++ str "token2" ++ [NL] ++ str "token3".

(** A handler of the supervisor that answers with a text and no
    keyboard. *)
Definition shown (env : click_env) (h : State → pystr * State) : Co (option screen) :=
  let* text := (λ st, let '(text, st') := h st in (Ret text, st')) in
  let* s := show (show_reply env) (mkScreen text None) in
  ret (Some s).

(** The chain of lines 161-184: what is shown, if anything, and the
    conversation state returned. *)
Definition dispatch (env : click_env) (data : pystr) (user_id : Z)
    : Co (option screen * Z) :=
  let shows (m : Co screen) : Co (option screen * Z) :=
    let* s := m in ret (Some s, END) in
  let then_end (m : Co (option screen)) : Co (option screen * Z) :=
    let* s := m in ret (s, END) in
  if bool_decide (data = str "tokens") then shows (show_token_menu (show_reply env))
  else if bool_decide (data = str "add_tokens") then
    let* s := show (show_reply env) (mkScreen SEND_TOKENS None) in
    ret (Some s, AWAITING_TOKENS)
  else if bool_decide (data = str "remove_tokens") then
    shows (show_remove_menu (show_reply env) user_id)
  else if bool_decide (data = str "token_info") then
    shows (show_info_menu (show_reply env) user_id)
  else if bool_decide (data = str "back_to_main") then
    shows (return_to_main (show_reply env))
  else if bool_decide (data = str "position") then
    fetch_positions env user_id ;;; ret (None, END)
  else if bool_decide (data = str "start_monitoring") then
    then_end (shown env (start_monitoring user_id))
  else if bool_decide (data = str "stop_monitoring") then
    then_end (shown env (stop_monitoring user_id))
  else if bool_decide (data = str "about") then shows (show_about (show_reply env))
  else if is_prefix_b (str "remove_") data || is_prefix_b (str "info_") data then
    then_end (handle_token_actions env data user_id)
  else ret (None, END).

(** [handle_button_click], lines 152-184. *)
Definition handle_button_click (env : click_env) (data : pystr) (user_id : Z)
    : Co (option screen * Z) :=
  answer (answer_reply env) ;;;
  ensure_user user_id ;;;
  dispatch env data user_id.

(** [process_tokens] as the conversation handler runs it: the reply is
    shown and the conversation ends, lines 263-276. *)
Definition process_tokens_handler (r : send_result) (user_id : Z) (text : pystr)
    : Co (screen * Z) :=
  let* reply := (λ st, let '(reply, st') := process_tokens user_id text st in
                       (Ret reply, st')) in
  let markup := match submitted_tokens text with
                | [] => None
                | _ => Some get_token_menu_markup
                end in
  let* s := show r (mkScreen reply markup) in
  ret (s, END).

End ChatSurface.

(** ** Notions of the specification *)

(** A run of whitespace. *)
Definition all_space (s : pystr) : Prop := Forall (λ c, is_space c = true) s.

(** [t] is [line] whitespace-trimmed: [line] is [t] between two runs
    of whitespace, and [t] neither begins nor ends with whitespace. *)
Definition trimmed_of (line t : pystr) : Prop :=
  (∃ a b, line = a ++ t ++ b ∧ all_space a ∧ all_space b)
  ∧ (∀ c, head t = Some c → is_space c = false)
  ∧ (∀ c, last t = Some c → is_space c = false).

(** The lines of a text: the pieces between its newlines, none of which
    holds a newline; a text without newline is its only line. *)
Inductive lines_of : pystr → list pystr → Prop :=
  | lines_last (l : pystr) : NL ∉ l → lines_of l [l]
  | lines_more (l text : pystr) (ls : list pystr) :
      NL ∉ l → lines_of text ls → lines_of (l ++ NL :: text) (l :: ls).

(** The non-empty whitespace-trimmed lines of a submission, in the
    words of the specification: every line trimmed, the non-empty ones
    kept, in order. *)
Definition nonempty_trimmed_lines (text : pystr) (new : list pystr) : Prop :=
  ∃ lines trimmed,
    lines_of text lines
    ∧ Forall2 trimmed_of lines trimmed
    ∧ new = filter (λ t, t ≠ []) trimmed.

(** HTTP 200 with a parseable body, in the words of the specification. *)
Definition ok_parseable (reply : http_reply) : bool :=
  match reply with
  | HttpResponse 200 (JsonValue _) => true
  | _ => false
  end.

(** A result that is present: anything but [None]. *)
Definition is_present (v : pyval) : bool :=
  match v with
  | PNone => false
  | _ => true
  end.

(** The exception a reply carries, from the transport or from parsing
    the body of a 200 response. *)
Definition raised_by (reply : http_reply) : option pyexc :=
  match reply with
  | HttpRaises e => Some e
  | HttpResponse status (JsonError e) => if (status =? 200)%Z then Some e else None
  | HttpResponse _ (JsonValue _) => None
  end.

(** A non-200 status, or a transport or parse failure that is an
    [Exception]. *)
Definition soft_failure (reply : http_reply) : bool :=
  match reply with
  | HttpRaises e => is_Exception e
  | HttpResponse status body =>
      if (status =? 200)%Z then
        match body with
        | JsonValue _ => false
        | JsonError e => is_Exception e
        end
      else true
  end.

(** The optional-result contract of one remote operation. *)
Definition optional_result (op : pystr → http_reply → Co pyval) : Prop :=
  ∀ (token : pystr) (reply : http_reply) (st : State),
    let r := (op token reply st).1 in
    let st' := (op token reply st).2 in
    (∀ v, r = Ret v ∧ is_present v = true
          ↔ reply = HttpResponse 200 (JsonValue v) ∧ is_present v = true)
    ∧ (soft_failure reply = true → r = Ret PNone)
    ∧ (∀ e, r = Raise e ↔ raised_by reply = Some e ∧ is_Exception e = false)
    ∧ r ≠ Blocked
    ∧ user_tokens st' = user_tokens st
    ∧ monitoring_tasks st' = monitoring_tasks st
    ∧ tasks st' = tasks st
    ∧ outbox st' = outbox st
    ∧ ∃ lines, log st' = log st ++ lines
               ∧ (soft_failure reply = true → length lines = 1)
               ∧ Forall (λ l, ∃ rest, l.2 = str "[" ++ format_token token ++ str "]" ++ rest) lines.

(** The two log lines of a remote operation, [what] being "Position"
    or "Ping". *)
Definition warning_line (what token : pystr) (status : Z) : pystr :=
  str "[" ++ format_token token ++ str "] " ++ what ++ str " error: HTTP " ++ str_of_Z status.
Definition error_line (what token : pystr) (e : pyexc) : pystr :=
  str "[" ++ format_token token ++ str "] " ++ what ++ str " error: " ++ exc_text e.

(** A remote operation that returns the absent result on a reply. *)
Definition returns_absent (op : pystr → http_reply → Co pyval)
    (token : pystr) (reply : http_reply) : Prop :=
  ∀ st, (op token reply st).1 = Ret PNone.

(** The status update that shows "Error" for both fields. *)
Definition error_update (token : pystr) : pystr :=
  [128260%N] ++ str " Status Update:" ++ [NL]
  ++ [8226%N] ++ str " *" ++ format_token token ++ str "*:" ++ [NL]
  ++ str "  Status: `Error`" ++ [NL]
  ++ str "  Position: `Error`".

(** A stand-in for [repr], for runs in which only strings are
    formatted. *)
Definition repr_unused : pyval → pystr := λ _, [].

(** The state after the two remote calls of an iteration. *)
Definition after_remote_calls (token : pystr) (env : iter_env) (st : State) : State :=
  (get_position token (position_reply env)
     (ping_server token (ping_reply env) st).2).2.

(** The same answers, with the message delivered. *)
Definition delivered (env : iter_env) : iter_env :=
  mkEnv (ping_reply env) (position_reply env) Delivered.

(** The exception left by the handler of lines 123-128. *)
Definition name_error : pyexc := mkExc NameError (str "name 'traceback' is not defined").

(** The message that carries the "Error" status update. *)
Definition error_message (user_id : Z) (token : pystr) : message :=
  mkMessage user_id (error_update token) (Some (str "Markdown")).

(** Answers that throw the cancellation in at the first await. *)
Definition cancel_env (env : iter_env) : iter_env :=
  mkEnv (HttpRaises cancelled) (position_reply env) (send_reply env).

(** The events that run a task, as opposed to the commands. *)
Definition is_run (ev : event) : bool :=
  match ev with
  | RunTask _ _ _ => true
  | _ => false
  end.

(** ** Sample data *)

Definition token_a : pystr := str "aaaaaaaaaa1111".
Definition token_b : pystr := str "bbbbbbbbbb2222".

(** A 200 response with the two fields the loop reads. *)
Definition reply_ok : http_reply :=
  HttpResponse 200
    (JsonValue (PDict [(str "status", PStr (str "ok")); (str "behind", PInt 12)])).

(** A 503 response. *)
Definition reply_503 : http_reply := HttpResponse 503 (JsonValue PNone).

(** A 200 response whose body is the JSON list [[1]]. *)
Definition reply_list : http_reply := HttpResponse 200 (JsonValue (PList [PInt 1])).

(** The chat platform refuses the message. *)
Definition forbidden : send_result :=
  Rejected (mkExc TelegramError (str "Forbidden: bot was blocked by the user")).

(** The task [create_task] schedules. *)
Definition spawn (user_id : Z) (token : pystr) : Task := mkTask user_id token Created false.

(** The parts of the state a polling loop has no business with. *)
Definition same_tracking (st st' : State) : Prop :=
  user_tokens st' = user_tokens st
  ∧ monitoring_tasks st' = monitoring_tasks st
  ∧ tasks st' = tasks st.

(** ** Decimal numerals *)

Definition is_digit (c : N) : bool := ((48 <=? c) && (c <=? 57))%N.

(** The number a run of ASCII digits writes, after [acc]. *)
Fixpoint parse_digits (acc : N) (s : pystr) : option N :=
  match s with
  | [] => Some acc
  | c :: r => if is_digit c then parse_digits (acc * 10 + (c - 48)) r else None
  end.

(** An [int] for the witnesses: it reads plain decimal numerals, which
    is all the menus write. [ValueError] is not among the classes
    modelled; its subclass [JSONDecodeError] stands for it, both being
    [Exception]s and neither a cancellation. *)
Definition decimal_int (s : pystr) : result Z :=
  match s, parse_digits 0 s with
  | _ :: _, Some n => Ret (Z.of_N n)
  | _, _ => Raise (mkExc JSONDecodeError (str "invalid literal for int() with base 10"))
  end.

(** ** More sample data *)

(** User 7 with the tokens a and b. *)
Definition two_tokens : State :=
  (process_tokens 7 (token_a ++ [NL] ++ token_b) initial_state).2.




(** ** What a coroutine leaves alone *)

(** A coroutine that keeps the state within a relation [R], however it
    ends. *)
Definition preserves (R : State → State → Prop) {A} (m : Co A) : Prop :=
  ∀ st, R st (m st).2.

(** The registry is as it was. *)
Definition same_registry (st st' : State) : Prop :=
  user_tokens st' = user_tokens st.

(** The sessions and the tasks are as they were. *)
Definition same_sessions (st st' : State) : Prop :=
  monitoring_tasks st' = monitoring_tasks st ∧ tasks st' = tasks st.

(** The registry is as it was for everybody but [user_id], who is
    still registered if they were. *)
Definition same_registry_but (user_id : Z) (st st' : State) : Prop :=
  (is_Some (user_tokens st !! user_id) → is_Some (user_tokens st' !! user_id))
  ∧ ∀ u, u ≠ user_id → user_tokens st' !! u = user_tokens st !! u.

(** A handler that, when it returns, returns the conversation state
    [code]. *)
Definition returns_code {A} (code : Z) (m : Co (A * Z)) : Prop :=
  ∀ st a c, (m st).1 = Ret (a, c) → c = code.

(** The tokens of [user_id] are as they were. *)
Definition same_list (user_id : Z) (st st' : State) : Prop :=
  list_tokens user_id st' = list_tokens user_id st.

(** A relation on states that holds of a state and itself, composes,
    and ignores the log and the messages sent. *)
Definition frame_rel (R : State → State → Prop) : Prop :=
  (∀ st, R st st)
  ∧ (∀ st1 st2 st3, R st1 st2 → R st2 st3 → R st1 st3)
  ∧ (∀ f st, R st (set_log f st))
  ∧ (∀ f st, R st (set_outbox f st)).

(** A remote operation that returns [v] on a reply. *)
Definition returns_value (op : pystr → http_reply → Co pyval)
    (token : pystr) (reply : http_reply) (v : pyval) : Prop :=
  ∀ st, (op token reply st).1 = Ret v.

(** A result the status lines can show: one that counts as false, or
    a dict. *)
Definition displayable (v : pyval) : bool :=
  negb (truthy v) || match v with PDict _ => true | _ => false end.

(** What a field shows of a displayable result: the entry under [key],
    [missing] without one, "Error" for a result that counts as false. *)
Definition shown_value (key missing : pystr) (v : pyval) : pyval :=
  match v with
  | PDict ((_ :: _) as items) => default (PStr missing) (assoc key items)
  | _ => PStr (str "Error")
  end.

(** The error of calling [.get] on something that is no dict. *)
Definition no_get : pyexc := mkExc AttributeError (str "object has no attribute 'get'").

(** A line of the position report, line 290. *)
Definition position_line (py_repr : pyval → pystr) (token : pystr) (v : pyval) : pystr :=
  [8226%N] ++ str " " ++ format_token token ++ str ": "
  ++ py_format py_repr (shown_value (str "behind") (str "Error") v).

(** A reply and its result that the report can show. *)
Definition reportable (token : pystr) (reply : http_reply) (v : pyval) : Prop :=
  returns_value get_position token reply v ∧ displayable v = true.

(** The body of [reply_ok]. *)
Definition body_ok : pyval :=
  PDict [(str "status", PStr (str "ok")); (str "behind", PInt 12)].

(** ** Session bookkeeping *)

(** Every handle of every session is a task of the event loop that
    belongs to the session's user, and no session holds a handle
    twice. *)
Definition tracked (st : State) : Prop :=
  ∀ u hs, monitoring_tasks st !! u = Some hs →
    NoDup hs ∧ ∀ h, h ∈ hs → ∃ t, tasks st !! h = Some t ∧ task_user t = u.

(** Every task that can still run is held by the session of its user. *)
Definition no_stray_loop (st : State) : Prop :=
  ∀ h t, tasks st !! h = Some t → active t = true → h ∈ handles (task_user t) st.

(** What the event loop makes of a task that ran and ended as [r]. *)
Definition finished (r : result unit) (t : Task) : Task :=
  mkTask (task_user t) (task_token t)
         (match r with Blocked => Suspended | _ => Done r end) false.

(** * Properties *)

(** ** Redaction *)

Lemma ellipsis_dots : str "..." = replicate 3 DOT.
Proof. reflexivity. Qed.

Lemma format_token_long (token : pystr) :
  6 < length token → format_token token = str "..." ++ last_chars 6 token.
Proof. intros H. unfold format_token. by rewrite decide_True. Qed.

Lemma format_token_short (token : pystr) :
  length token ≤ 6 → format_token token = token.
Proof. intros H. unfold format_token. rewrite decide_False; [done | lia]. Qed.

Lemma length_last_chars (n : nat) (s : pystr) :
  n ≤ length s → length (last_chars n s) = n.
Proof. intros H. unfold last_chars. rewrite length_drop. lia. Qed.

Lemma occurs_in_b_spec (needle hay : pystr) :
  occurs_in_b needle hay = true ↔ occurs_in needle hay.
Proof.
  assert (Hpre : ∀ p s, is_prefix_b p s = true ↔ ∃ b, s = p ++ b).
  { induction p as [|x p IH]; intros [|y s]; simpl.
    - split; [by exists [] | done].
    - split; [by eexists | done].
    - split; [done | by intros [b Hb]].
    - rewrite andb_true_iff, N.eqb_eq, IH. split.
      + intros [-> [b ->]]. by exists b.
      + intros [b Hb]. injection Hb as -> ->. eauto. }
  induction hay as [|y hay IH]; simpl; rewrite orb_true_iff, Hpre.
  - split.
    + intros [[b Hb] | ?]; [|done]. by exists [], b.
    + intros ([|] & b & Hb); [left; by exists b |]. done.
  - rewrite IH. split.
    + intros [[b Hb] | (a & b & Hb)]; [by exists [], b |].
      exists (y :: a), b. by rewrite Hb.
    + intros ([|x a] & b & Hb); [left; by exists b |].
      right. injection Hb as -> ->. by exists a, b.
Qed.

(** C8 (as stated, refuted): a token of six characters is surfaced as it
    is, not as an ellipsis followed by its last six characters, and the
    redacted form contains the full credential. *)
Lemma format_token_six_chars_in_full :
  format_token (str "abc123") = str "abc123"
  ∧ format_token (str "abc123") ≠ str "..." ++ last_chars 6 (str "abc123")
  ∧ occurs_in (str "abc123") (format_token (str "abc123")).
Proof.
  split; [reflexivity|]. split; [discriminate|].
  by exists [], [].
Qed.

(** C8 (amended): a token longer than six characters is surfaced as an
    ellipsis followed by its last six characters, nine characters in
    all, which contains the full token only when the token is at most
    nine characters long and all characters before its last six are
    dots; a token of six characters or fewer is surfaced in full. *)
Theorem format_token_redacts (token : pystr) :
  (6 < length token →
     format_token token = str "..." ++ last_chars 6 token
     ∧ length (format_token token) = 9
     ∧ (occurs_in token (format_token token)
        ↔ length token ≤ 9
          ∧ take (length token - 6) token = replicate (length token - 6) DOT))
  ∧ (length token ≤ 6 → format_token token = token).
Proof.
  split; [|apply format_token_short].
  intros Hlen. rewrite format_token_long by done.
  split; [done|]. split.
  { rewrite length_app, length_last_chars by lia. reflexivity. }
  rewrite ellipsis_dots. unfold last_chars.
  set (k := length token - 6).
  assert (Hk : length token = k + 6) by (unfold k; lia).
  split.
  - intros (a & b & Heq).
    assert (Hl : 9 = length a + (length token + length b)).
    { apply (f_equal length) in Heq.
      rewrite !length_app, length_replicate, length_drop in Heq. lia. }
    split; [lia|].
    apply (f_equal (take (length a + k))) in Heq.
    rewrite take_app_le in Heq by (rewrite length_replicate; lia).
    rewrite take_replicate, Nat.min_l in Heq by lia.
    rewrite take_app_add', take_app_le in Heq by lia.
    rewrite replicate_add in Heq.
    apply app_inj_1 in Heq; [by destruct Heq | by rewrite length_replicate].
  - intros [Hle Hdots].
    exists (replicate (3 - k) DOT), [].
    rewrite app_nil_r. rewrite <- (take_drop k token) at 2.
    rewrite Hdots, app_assoc, <- replicate_add.
    do 2 f_equal. lia.
Qed.

(** The amended C8 at the token ["aaaaaaaaaa1111"]. *)
Lemma format_token_redacts_witness :
  6 < length (str "aaaaaaaaaa1111")
  ∧ format_token (str "aaaaaaaaaa1111") = str "...aa1111"
  ∧ ¬ occurs_in (str "aaaaaaaaaa1111") (format_token (str "aaaaaaaaaa1111")).
Proof.
  assert (H : 6 < length (str "aaaaaaaaaa1111")) by (simpl; lia).
  destruct (proj1 (format_token_redacts (str "aaaaaaaaaa1111")) H) as (Hf & _ & Hocc).
  split; [exact H|]. split; [exact Hf|].
  intros Ho. apply Hocc in Ho. simpl in Ho. lia.
Defined.

(** A seven-character token that starts with a dot is shown in full
    inside its redacted form. *)
Example format_token_dot_prefix :
  format_token (str ".abcdef") = str "...abcdef"
  ∧ occurs_in (str ".abcdef") (format_token (str ".abcdef")).
Proof. split; [reflexivity|]. by exists (str ".."), []. Qed.

(** ** Token registry *)

Lemma submitted_tokens_filter (text : pystr) :
  submitted_tokens text = filter (λ t, t ≠ []) (strip <$> split_lines text).
Proof.
  unfold submitted_tokens.
  induction (split_lines text) as [|t ts IH]; [done|].
  rewrite fmap_cons. csimpl. rewrite IH.
  case_bool_decide as Ht.
  - by rewrite filter_cons_False by (by intros ?).
  - by rewrite filter_cons_True by done.
Qed.

Lemma lstrip_split (s : pystr) :
  ∃ a, s = a ++ lstrip s ∧ Forall (λ c, is_space c = true) a.
Proof.
  induction s as [|c s (a & Ha & Hsp)]; [by exists []|].
  simpl. destruct (is_space c) eqn:Hc.
  - exists (c :: a). split; [by rewrite Ha at 1 | by constructor].
  - by exists [].
Qed.

Lemma lstrip_head (s : pystr) (c : N) :
  head (lstrip s) = Some c → is_space c = false.
Proof.
  induction s as [|x s IH]; [done|].
  simpl. destruct (is_space x) eqn:Hx; [done|].
  simpl. by intros [= <-].
Qed.

Lemma rstrip_split (s : pystr) :
  ∃ b, s = rstrip s ++ b ∧ Forall (λ c, is_space c = true) b.
Proof.
  destruct (lstrip_split (reverse s)) as (a & Ha & Hsp).
  exists (reverse a). split.
  - unfold rstrip. by rewrite <- reverse_app, <- Ha, reverse_involutive.
  - by apply Forall_reverse.
Qed.

Lemma rstrip_last (s : pystr) (c : N) :
  last (rstrip s) = Some c → is_space c = false.
Proof. unfold rstrip. rewrite last_reverse. apply lstrip_head. Qed.

(** What [strip] leaves: the string without a run of whitespace at
    each end, with no whitespace first or last. *)
Lemma strip_spec (s : pystr) :
  (∃ a b, s = a ++ strip s ++ b
          ∧ Forall (λ c, is_space c = true) a
          ∧ Forall (λ c, is_space c = true) b)
  ∧ (∀ c, head (strip s) = Some c → is_space c = false)
  ∧ (∀ c, last (strip s) = Some c → is_space c = false).
Proof.
  unfold strip.
  destruct (lstrip_split s) as (a & Ha & Hsa).
  destruct (rstrip_split (lstrip s)) as (b & Hb & Hsb).
  split; [|split].
  - exists a, b. by rewrite <- Hb.
  - intros c Hc. apply (lstrip_head s). rewrite Hb.
    destruct (rstrip (lstrip s)); [done | exact Hc].
  - apply rstrip_last.
Qed.

Lemma split_lines_nonempty (text : pystr) : split_lines text ≠ [].
Proof.
  destruct text as [|c text]; [done|]. simpl.
  destruct (c =? NL)%N; [done|]. by destruct (split_lines text).
Qed.

Lemma split_lines_join (text : pystr) :
  join_lines (split_lines text) = text
  ∧ Forall (λ l, NL ∉ l) (split_lines text).
Proof.
  induction text as [|c text [IHj IHf]].
  { split; [done|]. repeat constructor. by intros ?%elem_of_nil. }
  simpl. destruct (N.eqb_spec c NL) as [->|Hc].
  - destruct (split_lines text) as [|h t] eqn:Hs;
      [by apply split_lines_nonempty in Hs|].
    split; [simpl; by rewrite <- IHj |].
    constructor; [by intros ?%elem_of_nil | done].
  - destruct (split_lines text) as [|h t] eqn:Hs;
      [by apply split_lines_nonempty in Hs|].
    split.
    + rewrite <- IHj. by destruct t.
    + inversion IHf; subst. constructor; [|done].
      intros [?|?]%elem_of_cons; [congruence | done].
Qed.

Lemma split_lines_app (a b : pystr) :
  split_lines (a ++ NL :: b) = split_lines a ++ split_lines b.
Proof.
  induction a as [|c a IH]; [done|].
  cbn [app split_lines]. rewrite IH.
  destruct (c =? NL)%N; [done|].
  pose proof (split_lines_nonempty a) as Hne.
  by destruct (split_lines a).
Qed.

Lemma split_lines_line (l : pystr) : NL ∉ l → split_lines l = [l].
Proof.
  induction l as [|c l IH]; [done|].
  intros Hnl. apply not_elem_of_cons in Hnl as [Hc Hl].
  cbn [split_lines]. rewrite IH by done.
  by destruct (N.eqb_spec c NL).
Qed.

Lemma lines_of_join (ls : list pystr) :
  ls ≠ [] → Forall (λ l, NL ∉ l) ls → lines_of (join_lines ls) ls.
Proof.
  intros Hne Hf. induction Hf as [|l ls Hl Hf IH]; [done|].
  destruct ls as [|l' ls]; [by constructor|].
  change (join_lines (l :: l' :: ls)) with (l ++ NL :: join_lines (l' :: ls)).
  constructor; [done|]. by apply IH.
Qed.

(** The lines of a text are what [split('\n')] returns, and nothing
    else. *)
Lemma lines_of_split_lines (text : pystr) (ls : list pystr) :
  lines_of text ls ↔ ls = split_lines text.
Proof.
  split.
  - induction 1 as [l Hl | l text ls Hl _ IH]; [by rewrite split_lines_line|].
    by rewrite split_lines_app, split_lines_line, IH.
  - intros ->. destruct (split_lines_join text) as [Hj Hf].
    rewrite <- Hj at 1. apply lines_of_join; [apply split_lines_nonempty | done].
Qed.

Lemma lstrip_all_space (a s : pystr) : all_space a → lstrip (a ++ s) = lstrip s.
Proof. induction 1 as [|c a Hc _ IH]; [done|]. cbn [app lstrip]. by rewrite Hc. Qed.

Lemma lstrip_id (s : pystr) :
  (∀ c, head s = Some c → is_space c = false) → lstrip s = s.
Proof. destruct s as [|c s]; [done|]. intros H. cbn [lstrip]. by rewrite (H c). Qed.

(** What trimming leaves of a line is what [strip] returns, and nothing
    else. *)
Lemma trimmed_of_strip (line t : pystr) : trimmed_of line t ↔ t = strip line.
Proof.
  split; [|intros ->; apply strip_spec].
  intros ((a & b & -> & Ha & Hb) & Hhead & Hlast).
  unfold strip, rstrip. rewrite lstrip_all_space by done.
  destruct t as [|c t].
  - cbn [app]. rewrite <- (app_nil_r b), lstrip_all_space by done. done.
  - rewrite (lstrip_id ((c :: t) ++ b)) by (intros x [= <-]; by apply Hhead).
    rewrite reverse_app, lstrip_all_space by (by apply Forall_reverse).
    rewrite lstrip_id; [by rewrite reverse_involutive|].
    intros x Hx. apply Hlast. by rewrite <- (reverse_involutive (c :: t)), last_reverse.
Qed.

Lemma trimmed_of_lines (lines trimmed : list pystr) :
  Forall2 trimmed_of lines trimmed ↔ trimmed = strip <$> lines.
Proof.
  split.
  - induction 1 as [|l t ls ts Hlt _ IH]; [done|].
    apply trimmed_of_strip in Hlt. by rewrite fmap_cons, <- Hlt, <- IH.
  - intros ->. induction lines as [|l ls IH]; constructor; [|done].
    by apply trimmed_of_strip.
Qed.

(** The list comprehension of line 266 computes the non-empty
    whitespace-trimmed lines, which are determined by the text. *)
Lemma submitted_tokens_nonempty_trimmed (text : pystr) (new : list pystr) :
  nonempty_trimmed_lines text new ↔ new = submitted_tokens text.
Proof.
  rewrite submitted_tokens_filter. split.
  - intros (lines & trimmed & Hl & Ht & ->).
    apply lines_of_split_lines in Hl as ->. by apply trimmed_of_lines in Ht as ->.
  - intros ->. exists (split_lines text), (strip <$> split_lines text).
    split_and!; [by apply lines_of_split_lines | by apply trimmed_of_lines | done].
Qed.

(** C7: [process_tokens] appends the non-empty whitespace-trimmed lines
    of the submission, in order, after the entries the user already
    has, and reports the number added and the new total; with no such
    line it answers "No valid tokens found." and changes nothing.  The
    lines of the text are the pieces between its newlines, a trimmed
    line is the line without the whitespace at its two ends, and the
    list [new] of the non-empty ones is the only such list. *)
Theorem process_tokens_appends (user_id : Z) (text : pystr) (st : State) :
  ∃ new,
    nonempty_trimmed_lines text new
    ∧ (∀ new', nonempty_trimmed_lines text new' → new' = new)
    ∧ let reply := (process_tokens user_id text st).1 in
      let st' := (process_tokens user_id text st).2 in
      if decide (new = [])
      then reply = [10060%N] ++ str " No valid tokens found." ∧ st' = st
      else list_tokens user_id st' = list_tokens user_id st ++ new
           ∧ reply = [9989%N] ++ str " Added " ++ str_of_nat (length new)
                     ++ str " tokens" ++ [NL] ++ str "Total: "
                     ++ str_of_nat (length (list_tokens user_id st ++ new))
           ∧ (∀ u, u ≠ user_id → user_tokens st' !! u = user_tokens st !! u)
           ∧ monitoring_tasks st' = monitoring_tasks st
           ∧ tasks st' = tasks st.
Proof.
  exists (submitted_tokens text). split_and!.
  - by apply submitted_tokens_nonempty_trimmed.
  - intros new' Hnew. by apply submitted_tokens_nonempty_trimmed.
  - unfold process_tokens.
    destruct (submitted_tokens text) as [|t ts] eqn:Hnew; [by rewrite decide_True|].
    rewrite decide_False by done. cbn [fst snd].
    unfold list_tokens, set_user_tokens, added_text.
    cbn [user_tokens monitoring_tasks tasks]. rewrite lookup_insert_eq.
    cbn [from_option id]. split_and!; try done.
    intros u Hu. by rewrite lookup_insert_ne.
Qed.

(** C7 on the scenario of the specification: two tokens on two lines,
    with stray blanks, a line of whitespace and an empty last line,
    listed in submission order after the token already held. *)
Lemma process_tokens_appends_witness :
  let st0 := (process_tokens 7 (str "cccccccccc3333") initial_state).2 in
  let r := process_tokens 7 ([32%N] ++ str "aaaaaaaaaa1111 " ++ [NL; 9%N; NL]
                             ++ str "bbbbbbbbbb2222" ++ [NL]) st0 in
  list_tokens 7 r.2 = [str "cccccccccc3333"; str "aaaaaaaaaa1111"; str "bbbbbbbbbb2222"]
  ∧ r.1 = [9989%N] ++ str " Added 2 tokens" ++ [NL] ++ str "Total: 3".
Proof.
  assert (Hnl : ∀ l : pystr, bool_decide (NL ∉ l) = true → NL ∉ l)
    by (intros l; apply bool_decide_eq_true_1).
  assert (Hrel : nonempty_trimmed_lines
                   ([32%N] ++ str "aaaaaaaaaa1111 " ++ [NL; 9%N; NL]
                    ++ str "bbbbbbbbbb2222" ++ [NL])
                   [str "aaaaaaaaaa1111"; str "bbbbbbbbbb2222"]).
  { exists [ [32%N] ++ str "aaaaaaaaaa1111 "; [9%N]; str "bbbbbbbbbb2222"; [] ],
           [ str "aaaaaaaaaa1111"; []; str "bbbbbbbbbb2222"; [] ].
    split_and!.
    - apply (lines_more ([32%N] ++ str "aaaaaaaaaa1111 ")); [by apply Hnl|].
      apply (lines_more [9%N]); [by apply Hnl|].
      apply (lines_more (str "bbbbbbbbbb2222")); [by apply Hnl|].
      apply lines_last, not_elem_of_nil.
    - constructor; [|constructor; [|constructor; [|constructor; [|constructor]]]].
      + split_and!; [|by intros c [= <-]|by intros c [= <-]].
        exists [32%N], [32%N]. split_and!; [done| |]; by repeat constructor.
      + split_and!; [|done|done].
        exists [9%N], []. split_and!; [done| |]; by repeat constructor.
      + split_and!; [|by intros c [= <-]|by intros c [= <-]].
        exists [], []. split_and!; [done| |]; by repeat constructor.
      + split_and!; [|done|done].
        exists [], []. split_and!; [done| |]; by repeat constructor.
    - done. }
  set (st0 := (process_tokens 7 (str "cccccccccc3333") initial_state).2).
  assert (H0 : list_tokens 7 st0 = [str "cccccccccc3333"]) by (vm_compute; reflexivity).
  destruct (process_tokens_appends 7
              ([32%N] ++ str "aaaaaaaaaa1111 " ++ [NL; 9%N; NL]
               ++ str "bbbbbbbbbb2222" ++ [NL]) st0) as (new & _ & Huniq & H).
  apply Huniq in Hrel. subst new. cbv zeta in H.
  rewrite decide_False in H by discriminate.
  destruct H as (Hlist & Hreply & _). rewrite H0 in Hlist, Hreply.
  split; [exact Hlist|]. rewrite Hreply. vm_compute. reflexivity.
Defined.

(** ** Remote status client *)

(** C3 (as stated, refuted): a 200 response whose body parses, to JSON
    [null], gives an absent result from both operations. *)
Lemma remote_null_body_is_absent :
  let reply := HttpResponse 200 (JsonValue PNone) in
  let token := str "aaaaaaaaaa1111" in
  ok_parseable reply = true
  ∧ get_position token reply initial_state = (Ret PNone, initial_state)
  ∧ ping_server token reply initial_state = (Ret PNone, initial_state)
  ∧ is_present PNone = false.
Proof. by split_and!. Qed.

(** Cancellation is not an [Exception]: it passes the boundary of both
    operations. *)
Example remote_cancellation_passes :
  get_position (str "aaaaaaaaaa1111") (HttpRaises cancelled) initial_state
    = (Raise cancelled, initial_state)
  ∧ ping_server (str "aaaaaaaaaa1111") (HttpRaises cancelled) initial_state
    = (Raise cancelled, initial_state).
Proof. by split. Qed.

Lemma reply_cases (reply : http_reply) :
  (∃ v, reply = HttpResponse 200 (JsonValue v))
  ∨ (∃ status body, status ≠ 200%Z ∧ reply = HttpResponse status body)
  ∨ (∃ e, reply = HttpRaises e ∨ reply = HttpResponse 200 (JsonError e)).
Proof.
  destruct reply as [e | status body]; [eauto|].
  destruct (decide (status = 200%Z)) as [->|Hs]; [|eauto 6].
  destruct body; eauto 6.
Qed.

Ltac iff_by_cases :=
  intros ?; split; intros ?; destruct_and?; simplify_eq; try done.

Section OptionalResult.

(** One remote operation and the word its log lines carry. *)
Variable op : pystr → http_reply → Co pyval.
Variable what : pystr.

Hypothesis op_ok : ∀ token v st,
  op token (HttpResponse 200 (JsonValue v)) st = (Ret v, st).
Hypothesis op_status : ∀ token status body st,
  status ≠ 200%Z →
  op token (HttpResponse status body) st
  = (Ret PNone, set_log (λ l, l ++ [(WARNING, warning_line what token status)]) st).
Hypothesis op_caught : ∀ token reply e st,
  reply = HttpRaises e ∨ reply = HttpResponse 200 (JsonError e) →
  is_Exception e = true →
  op token reply st = (Ret PNone, set_log (λ l, l ++ [(ERROR, error_line what token e)]) st).
Hypothesis op_passes : ∀ token reply e st,
  reply = HttpRaises e ∨ reply = HttpResponse 200 (JsonError e) →
  is_Exception e = false →
  op token reply st = (Raise e, st).

Lemma optional_result_of_equations : optional_result op.
Proof using op_ok op_status op_caught op_passes.
  intros token reply st.
  destruct (reply_cases reply) as [[v ->] | [(status & body & Hs & ->) | [e He]]].
  - rewrite op_ok. simpl. split_and!; try done; try by iff_by_cases.
    exists nil. by rewrite app_nil_r.
  - rewrite op_status by done. cbn -[str format_token].
    assert (Hneq : (status =? 200)%Z = false) by by apply Z.eqb_neq.
    rewrite Hneq. split_and!; try done; try by iff_by_cases.
    + destruct body; rewrite ?Hneq; by iff_by_cases.
    + eexists. split_and!; [done | done |].
      repeat constructor. unfold warning_line. simpl. eauto.
  - assert (Hr : raised_by reply = Some e) by by destruct He as [-> | ->].
    assert (Hsoft : soft_failure reply = is_Exception e) by by destruct He as [-> | ->].
    rewrite Hr, Hsoft.
    destruct (is_Exception e) eqn:Hexc.
    + rewrite (op_caught _ _ e) by done. cbn -[str format_token].
      split_and!; try done; try (by destruct He; iff_by_cases).
      * iff_by_cases; congruence.
      * eexists. split_and!; [done | done |].
        repeat constructor. unfold error_line. simpl. eauto.
    + rewrite (op_passes _ _ e) by done. simpl.
      split_and!; try done; try (by destruct He; iff_by_cases).
      exists nil. by rewrite app_nil_r.
Qed.

End OptionalResult.

Lemma get_position_optional : optional_result get_position.
Proof.
  apply (optional_result_of_equations get_position (str "Position")).
  - done.
  - intros token status body st Hs%Z.eqb_neq.
    unfold get_position, try_except, bind. simpl. by rewrite Hs.
  - intros token reply e st [-> | ->] He;
      unfold get_position, try_except, except_Exception; simpl; by rewrite He.
  - intros token reply e st [-> | ->] He;
      unfold get_position, try_except, except_Exception; simpl; by rewrite He.
Qed.

Lemma ping_server_optional : optional_result ping_server.
Proof.
  apply (optional_result_of_equations ping_server (str "Ping")).
  - done.
  - intros token status body st Hs%Z.eqb_neq.
    unfold ping_server, try_except, bind. simpl. by rewrite Hs.
  - intros token reply e st [-> | ->] He;
      unfold ping_server, try_except, except_Exception; simpl; by rewrite He.
  - intros token reply e st [-> | ->] He;
      unfold ping_server, try_except, except_Exception; simpl; by rewrite He.
Qed.

(** C3 (amended): each remote operation returns the value parsed from
    the body on a 200 response whose body parses, which is a present
    result exactly when that value is not [None]; it returns the absent
    result, after one log line that starts with the redacted token, on
    any other status and on a transport or parse failure that is an
    [Exception]; it passes on only errors that are not, such as the
    cancellation of the task; and it touches nothing but the log. *)
Theorem remote_calls_optional_result :
  optional_result get_position ∧ optional_result ping_server.
Proof. split; [apply get_position_optional | apply ping_server_optional]. Qed.

(** ** The polling loop *)

Section Loop.

Variable py_repr : pyval → pystr.

Lemma while_True_cons (body : iter_env → Co unit) env rest st :
  while_True body (env :: rest) st
  = match body env st with
    | (Ret _, st') => while_True body rest st'
    | (Raise e, st') => (Raise e, st')
    | (Blocked, st') => (Blocked, st')
    end.
Proof. done. Qed.

Lemma after_remote_calls_frame token env st :
  user_tokens (after_remote_calls token env st) = user_tokens st
  ∧ monitoring_tasks (after_remote_calls token env st) = monitoring_tasks st
  ∧ tasks (after_remote_calls token env st) = tasks st
  ∧ outbox (after_remote_calls token env st) = outbox st.
Proof.
  unfold after_remote_calls.
  destruct (ping_server_optional token (ping_reply env) st)
    as (_ & _ & _ & _ & Hu & Hm & Ht & Ho & _).
  destruct (get_position_optional token (position_reply env)
              (ping_server token (ping_reply env) st).2)
    as (_ & _ & _ & _ & Hu' & Hm' & Ht' & Ho' & _).
  simpl in *. by rewrite Hu', Hm', Ht', Ho'.
Qed.

(** One iteration with both results absent and the send delivered. *)
Lemma monitor_iteration_absent user_id token env st :
  returns_absent ping_server token (ping_reply env) →
  returns_absent get_position token (position_reply env) →
  send_reply env = Delivered →
  monitor_iteration py_repr user_id token env st
  = (Ret tt,
     set_outbox (λ o, o ++ [mkMessage user_id (error_update token) (Some (str "Markdown"))])
                (after_remote_calls token env st)).
Proof.
  intros Hping Hpos Hsend.
  unfold monitor_iteration, after_remote_calls, bind.
  specialize (Hping st).
  destruct (ping_server token (ping_reply env) st) as [r1 st1].
  simpl in Hping. subst r1. cbn [snd].
  specialize (Hpos st1).
  destruct (get_position token (position_reply env) st1) as [r2 st2].
  simpl in Hpos. subst r2.
  rewrite Hsend. reflexivity.
Qed.

Lemma while_True_absent user_id token envs :
  Forall (λ env, returns_absent ping_server token (ping_reply env)
                 ∧ returns_absent get_position token (position_reply env)
                 ∧ send_reply env = Delivered) envs →
  ∀ st, ∃ st',
    (∀ more, while_True (monitor_iteration py_repr user_id token) (envs ++ more) st
             = while_True (monitor_iteration py_repr user_id token) more st')
    ∧ outbox st' = outbox st ++ replicate (length envs) (error_message user_id token)
    ∧ user_tokens st' = user_tokens st
    ∧ monitoring_tasks st' = monitoring_tasks st
    ∧ tasks st' = tasks st.
Proof.
  induction 1 as [|env envs (Hping & Hpos & Hsend) _ IH]; intros st.
  - exists st. split_and!; try done. by rewrite app_nil_r.
  - destruct (after_remote_calls_frame token env st) as (Hu & Hm & Ht & Ho).
    destruct (IH (set_outbox (λ o, o ++ [error_message user_id token])
                    (after_remote_calls token env st)))
      as (st' & Hrun & Ho' & Hu' & Hm' & Ht').
    exists st'. split_and!.
    + intros more. rewrite <- app_comm_cons, while_True_cons.
      rewrite monitor_iteration_absent by done. apply Hrun.
    + rewrite Ho'. simpl. rewrite Ho, <- app_assoc. done.
    + by rewrite Hu'.
    + by rewrite Hm'.
    + by rewrite Ht'.
Qed.

(** C9 (amended): while the two remote calls return absent results
    and every status update is delivered, the loop sends one
    "Error"/"Error" status update per iteration and is still in the
    loop after any number of iterations; a cancellation thrown in at
    the next await ends it with a normal return. *)
Theorem monitor_token_error_updates user_id token envs crash_send st :
  Forall (λ env, returns_absent ping_server token (ping_reply env)
                 ∧ returns_absent get_position token (position_reply env)
                 ∧ send_reply env = Delivered) envs →
  let run := monitor_token py_repr user_id token envs crash_send st in
  run.1 = Blocked
  ∧ outbox run.2 = outbox st ++ replicate (length envs) (error_message user_id token)
  ∧ user_tokens run.2 = user_tokens st
  ∧ monitoring_tasks run.2 = monitoring_tasks st
  ∧ tasks run.2 = tasks st
  ∧ ∀ env, (monitor_token py_repr user_id token (envs ++ [cancel_env env])
              crash_send st).1 = Ret tt.
Proof.
  intros Habsent run. subst run.
  destruct (while_True_absent user_id token envs Habsent st)
    as (st' & Hrun & Ho & Hu & Hm & Ht).
  unfold monitor_token, try_except.
  pose proof (Hrun []) as Hend. rewrite app_nil_r in Hend.
  rewrite Hend. simpl. split_and!; try done.
  intros env. rewrite Hrun. simpl.
  unfold monitor_iteration, bind, ping_server, try_except. simpl. done.
Qed.

(** The handler of lines 123-128 raises before it logs or sends. *)
Lemma monitor_handlers_crash user_id token crash_send e st :
  is_Exception e = true →
  ∃ h, monitor_handlers user_id token crash_send e = Some h
       ∧ h st = (Raise name_error, st).
Proof.
  intros He. unfold monitor_handlers.
  assert (is_CancelledError e = false) as ->.
  { unfold is_Exception, is_CancelledError in *. by destruct (exc_class_of e). }
  rewrite He. eexists. split; [done|]. done.
Qed.

(** An iteration that would complete with the message delivered
    raises the platform's error when the message is rejected. *)
Lemma monitor_iteration_rejected user_id token env e st :
  send_reply env = Rejected e →
  (monitor_iteration py_repr user_id token (delivered env) st).1 = Ret tt →
  monitor_iteration py_repr user_id token env st
  = (Raise e, after_remote_calls token env st).
Proof.
  intros Hsend. unfold monitor_iteration, after_remote_calls, bind. simpl.
  destruct (ping_server token (ping_reply env) st) as [[v1| |] st1]; try done.
  cbn [snd].
  destruct (get_position token (position_reply env) st1) as [[v2| |] st2]; try done.
  unfold status_field, py_get.
  destruct (truthy v1), v1; try done;
    destruct (truthy v2), v2; try done; by rewrite Hsend.
Qed.

(** C2 (amended): when the send at the end of an iteration is
    rejected with an [Exception], the loop is left at once: the later
    answers are never used, the run has ended, and nothing beyond
    the crash notice can have been sent. *)
Theorem monitor_token_send_failure_ends user_id token env rest crash_send st e :
  send_reply env = Rejected e →
  is_Exception e = true →
  (monitor_iteration py_repr user_id token (delivered env) st).1 = Ret tt →
  let run := monitor_token py_repr user_id token (env :: rest) crash_send st in
  run = monitor_token py_repr user_id token [env] crash_send st
  ∧ run.1 ≠ Blocked
  ∧ (∃ extra, outbox run.2 = outbox st ++ extra
              ∧ Forall (λ m, msg_text m = crash_notice token) extra)
  ∧ user_tokens run.2 = user_tokens st
  ∧ monitoring_tasks run.2 = monitoring_tasks st
  ∧ tasks run.2 = tasks st.
Proof.
  intros Hsend He Hiter run. subst run.
  unfold monitor_token, try_except.
  rewrite !while_True_cons, (monitor_iteration_rejected _ _ _ e) by done.
  destruct (monitor_handlers_crash user_id token crash_send e
              (after_remote_calls token env st) He) as (h & -> & ->).
  destruct (after_remote_calls_frame token env st) as (Hu & Hm & Ht & Ho).
  simpl. split_and!; try done.
  exists nil. by rewrite app_nil_r.
Qed.

End Loop.

(** The amended C9 on three rounds of failing remote calls. *)
Lemma monitor_token_error_updates_witness :
  let envs := replicate 3 (mkEnv reply_503 (HttpRaises (mkExc ClientError (str "reset"))) Delivered) in
  let run := monitor_token repr_unused 7 token_a envs Delivered initial_state in
  run.1 = Blocked
  ∧ outbox run.2 = replicate 3 (error_message 7 token_a)
  ∧ msg_text (error_message 7 token_a)
    = [128260%N] ++ str " Status Update:" ++ [NL]
      ++ [8226%N] ++ str " *...aa1111*:" ++ [NL]
      ++ str "  Status: `Error`" ++ [NL]
      ++ str "  Position: `Error`".
Proof.
  pose proof (monitor_token_error_updates repr_unused 7 token_a
    (replicate 3 (mkEnv reply_503 (HttpRaises (mkExc ClientError (str "reset"))) Delivered))
    Delivered initial_state) as H.
  destruct H as (Hb & Ho & _).
  { repeat constructor; intros st; reflexivity. }
  split; [exact Hb|]. split; [exact Ho|]. reflexivity.
Defined.

(** C9 (as stated, refuted): both remote calls return absent results in
    every round, the first status update is rejected, and the loop ends
    on its own in the first round without a status update sent. *)
Lemma monitor_token_absent_ends_on_rejected_send :
  let env1 := mkEnv reply_503 reply_503 forbidden in
  let env2 := mkEnv reply_503 reply_503 Delivered in
  let run := monitor_token repr_unused 7 token_a [env1; env2] Delivered initial_state in
  (ping_server token_a reply_503 initial_state).1 = Ret PNone
  ∧ (get_position token_a reply_503 initial_state).1 = Ret PNone
  ∧ run.1 = Raise name_error
  ∧ outbox run.2 = [].
Proof. by split_and!. Qed.

(** The amended C2 on a round with good answers and a rejected send. *)
Lemma monitor_token_send_failure_ends_witness :
  let env := mkEnv reply_ok reply_ok forbidden in
  let more := [mkEnv reply_ok reply_ok Delivered] in
  let run := monitor_token repr_unused 7 token_a (env :: more) Delivered initial_state in
  run = monitor_token repr_unused 7 token_a [env] Delivered initial_state
  ∧ run.1 ≠ Blocked.
Proof.
  pose proof (monitor_token_send_failure_ends repr_unused 7 token_a
    (mkEnv reply_ok reply_ok forbidden) [mkEnv reply_ok reply_ok Delivered]
    Delivered initial_state
    (mkExc TelegramError (str "Forbidden: bot was blocked by the user"))
    eq_refl eq_refl eq_refl) as (H1 & H2 & _).
  split; [exact H1 | exact H2].
Defined.

(** C2 (as stated, refuted): the send of the first round is rejected;
    the loop does not go on to the second round, whose status update
    would have been delivered, and nothing is logged. *)
Lemma monitor_token_stops_on_rejected_send :
  let env1 := mkEnv reply_ok reply_ok forbidden in
  let env2 := mkEnv reply_ok reply_ok Delivered in
  let run := monitor_token repr_unused 7 token_a [env1; env2] Delivered initial_state in
  run.1 = Raise name_error
  ∧ outbox run.2 = []
  ∧ log run.2 = []
  ∧ (monitor_token repr_unused 7 token_a [env2] Delivered initial_state).1 = Blocked
  ∧ length (outbox (monitor_token repr_unused 7 token_a [env2] Delivered initial_state).2) = 1.
Proof. by split_and!. Qed.

(** ** Monitor supervisor *)

Lemma start_loop_closed_form (user_id : Z) (toks : list pystr) :
  ∀ (st : State) (m0 : gmap Z (list nat)) (hs : list nat),
    monitoring_tasks st = <[user_id := hs]> m0 →
    foldl (λ s token,
             let '(task, s') := create_task user_id token s in
             set_monitoring_tasks (alter (λ l, l ++ [task]) user_id) s')
          st toks
    = mkState (user_tokens st)
              (<[user_id := hs ++ seq (length (tasks st)) (length toks)]> m0)
              (tasks st ++ (spawn user_id <$> toks))
              (outbox st) (log st).
Proof.
  induction toks as [|tok toks IH]; intros st m0 hs Hm.
  - simpl. rewrite !app_nil_r, <- Hm. by destruct st.
  - cbn [foldl create_task].
    rewrite (IH _ m0 (hs ++ [length (tasks st)])).
    + cbn [user_tokens tasks outbox log set_monitoring_tasks set_tasks].
      rewrite length_app, <- !app_assoc. cbn [length app seq fmap list_fmap].
      by rewrite Nat.add_1_r.
    + simpl. rewrite Hm. by rewrite alter_insert_eq.
Qed.

Lemma start_monitoring_fresh (user_id : Z) (st : State) :
  monitoring_tasks st !! user_id = None →
  start_monitoring user_id st
  = (STARTED,
     mkState (user_tokens st)
             (<[user_id := seq (length (tasks st)) (length (list_tokens user_id st))]>
                (monitoring_tasks st))
             (tasks st ++ (spawn user_id <$> list_tokens user_id st))
             (outbox st) (log st)).
Proof.
  intros Hnone. unfold start_monitoring.
  rewrite decide_False by (rewrite Hnone; by intros [? ?]).
  rewrite (start_loop_closed_form user_id _ _ (monitoring_tasks st) []); done.
Qed.

Lemma start_monitoring_running (user_id : Z) (st : State) :
  is_Some (monitoring_tasks st !! user_id) →
  start_monitoring user_id st = (ALREADY_RUNNING, st).
Proof. intros H. unfold start_monitoring. by rewrite decide_True. Qed.

(** C6: for a user without a session, [start_monitoring] takes the
    tokens the user has at that instant and creates one task per entry,
    duplicates included, in order; the handles are new, distinct and as
    many as the tokens, and the user has a session afterwards, also
    with no token at all. *)
Theorem start_monitoring_spawns (user_id : Z) (st : State) :
  monitoring_tasks st !! user_id = None →
  let toks := list_tokens user_id st in
  let r := start_monitoring user_id st in
  r.1 = STARTED
  ∧ monitoring_tasks r.2 !! user_id = Some (handles user_id r.2)
  ∧ handles user_id r.2 = seq (length (tasks st)) (length toks)
  ∧ length (handles user_id r.2) = length toks
  ∧ NoDup (handles user_id r.2)
  ∧ (∀ i tok, toks !! i = Some tok →
       ∃ h, handles user_id r.2 !! i = Some h
            ∧ length (tasks st) ≤ h
            ∧ tasks r.2 !! h = Some (mkTask user_id tok Created false))
  ∧ (∀ h, h < length (tasks st) → tasks r.2 !! h = tasks st !! h)
  ∧ length (tasks r.2) = length (tasks st) + length toks
  ∧ user_tokens r.2 = user_tokens st
  ∧ (∀ u, u ≠ user_id → monitoring_tasks r.2 !! u = monitoring_tasks st !! u)
  ∧ (toks = [] → monitoring_tasks r.2 !! user_id = Some []).
Proof.
  intros Hnone toks r. subst r.
  rewrite start_monitoring_fresh by done.
  unfold handles. cbn [fst snd monitoring_tasks tasks user_tokens].
  rewrite lookup_insert_eq. fold toks. cbn [from_option id].
  split_and!; try done.
  - by rewrite length_seq.
  - apply NoDup_seq.
  - intros i tok Hi. exists (length (tasks st) + i).
    pose proof (lookup_lt_Some _ _ _ Hi) as Hlt.
    split_and!.
    + by apply lookup_seq_lt.
    + lia.
    + rewrite lookup_app_r by lia.
      replace (length (tasks st) + i - length (tasks st)) with i by lia.
      by rewrite list_lookup_fmap, Hi.
  - intros h Hh. by rewrite lookup_app_l.
  - by rewrite length_app, length_fmap.
  - intros u Hu. by rewrite lookup_insert_ne.
  - by intros ->.
Qed.

(** C6 at a user with the same token twice and another one. *)
Lemma start_monitoring_spawns_witness :
  let st := (process_tokens 7 (token_a ++ [NL] ++ token_a ++ [NL] ++ token_b)
               initial_state).2 in
  monitoring_tasks st !! 7%Z = None
  ∧ handles 7 (start_monitoring 7 st).2 = [0; 1; 2]
  ∧ (start_monitoring 7 initial_state).1 = STARTED
  ∧ monitoring_tasks (start_monitoring 7 initial_state).2 !! 7%Z = Some [].
Proof.
  set (st := (process_tokens 7 (token_a ++ [NL] ++ token_a ++ [NL] ++ token_b)
                initial_state).2).
  assert (H : monitoring_tasks st !! 7%Z = None) by reflexivity.
  assert (H0 : monitoring_tasks initial_state !! 7%Z = None) by reflexivity.
  pose proof (start_monitoring_spawns 7 st H) as (_ & _ & H3 & _).
  pose proof (start_monitoring_spawns 7 initial_state H0) as (H1 & _).
  pose proof (start_monitoring_spawns 7 initial_state H0)
    as (_ & _ & _ & _ & _ & _ & _ & _ & _ & _ & H11).
  split; [exact H|]. split; [exact H3|]. split; [exact H1|].
  apply H11. reflexivity.
Defined.

(** C5: a second [start_monitoring] with no [stop_monitoring] in
    between answers "Monitoring already running" and leaves the state,
    and so the handles and the tasks, as the first call left them. *)
Theorem start_monitoring_twice (user_id : Z) (st : State) :
  let st1 := (start_monitoring user_id st).2 in
  start_monitoring user_id st1 = (ALREADY_RUNNING, st1)
  ∧ handles user_id (start_monitoring user_id st1).2 = handles user_id st1
  ∧ tasks (start_monitoring user_id st1).2 = tasks st1.
Proof.
  intros st1.
  assert (Hrun : start_monitoring user_id st1 = (ALREADY_RUNNING, st1)).
  { apply start_monitoring_running. subst st1.
    destruct (monitoring_tasks st !! user_id) as [hs|] eqn:Hu.
    - rewrite start_monitoring_running by (by rewrite Hu). simpl. by rewrite Hu.
    - rewrite start_monitoring_fresh by done. simpl.
      by rewrite lookup_insert_eq. }
  by rewrite Hrun.
Qed.

(** *** Cancellation *)

Lemma request_cancel_idemp (t : Task) :
  request_cancel (request_cancel t) = request_cancel t.
Proof. unfold request_cancel. by destruct t as [u tok [| |r] c]. Qed.

Lemma request_cancel_inactive (t : Task) : active (request_cancel t) = false.
Proof. unfold request_cancel, active. by destruct t as [u tok [| |r] c]. Qed.

Lemma cancel_all_frame (hs : list nat) (st : State) :
  let st' := foldl (λ s task, cancel task s) st hs in
  user_tokens st' = user_tokens st
  ∧ monitoring_tasks st' = monitoring_tasks st
  ∧ outbox st' = outbox st
  ∧ log st' = log st.
Proof.
  revert st. induction hs as [|h hs IH]; intros st; [done|].
  simpl. destruct (IH (cancel h st)) as (-> & -> & -> & ->). done.
Qed.

Lemma cancel_all_lookup (hs : list nat) (st : State) (i : nat) :
  tasks (foldl (λ s task, cancel task s) st hs) !! i
  = if bool_decide (i ∈ hs) then request_cancel <$> tasks st !! i
    else tasks st !! i.
Proof.
  revert st. induction hs as [|h hs IH]; intros st.
  - cbn [foldl]. rewrite bool_decide_eq_false_2; [done | apply not_elem_of_nil].
  - cbn [foldl]. rewrite IH. unfold cancel, set_tasks. cbn [tasks].
    destruct (decide (i = h)) as [->|Hne].
    + rewrite list_lookup_alter_eq.
      rewrite (bool_decide_eq_true_2 (h ∈ h :: hs)) by apply list_elem_of_here.
      case_bool_decide; [|done].
      destruct (tasks st !! h); [|done]. simpl.
      by rewrite request_cancel_idemp.
    + rewrite list_lookup_alter_ne by done.
      case_bool_decide as Hin.
      * rewrite bool_decide_eq_true_2; [done | by apply list_elem_of_further].
      * rewrite bool_decide_eq_false_2; [done|].
        intros [?|?]%elem_of_cons; done.
Qed.

(** *** What a polling loop leaves alone *)

Lemma same_tracking_refl (st : State) : same_tracking st st.
Proof. done. Qed.

Lemma same_tracking_trans (st1 st2 st3 : State) :
  same_tracking st1 st2 → same_tracking st2 st3 → same_tracking st1 st3.
Proof. intros (? & ? & ?) (? & ? & ?). split_and!; congruence. Qed.

Lemma remote_call_tracking (op : pystr → http_reply → Co pyval) token reply st :
  optional_result op → same_tracking st (op token reply st).2.
Proof.
  intros Hop. destruct (Hop token reply st) as (_ & _ & _ & _ & Hu & Hm & Ht & _).
  done.
Qed.

Section Frame.

Variable py_repr : pyval → pystr.

Lemma monitor_iteration_tracking user_id token env st :
  same_tracking st (monitor_iteration py_repr user_id token env st).2
  ∧ (monitor_iteration py_repr user_id token env st).1 ≠ Blocked.
Proof.
  pose proof (remote_call_tracking ping_server token (ping_reply env) st
                ping_server_optional) as H1.
  destruct (ping_server_optional token (ping_reply env) st) as (_ & _ & _ & Hb1 & _).
  unfold monitor_iteration, bind.
  destruct (ping_server token (ping_reply env) st) as [[v1|e1|] st1];
    cbn [fst snd] in *; [| done | done].
  pose proof (remote_call_tracking get_position token (position_reply env) st1
                get_position_optional) as H2.
  destruct (get_position_optional token (position_reply env) st1) as (_ & _ & _ & Hb2 & _).
  destruct (get_position token (position_reply env) st1) as [[v2|e2|] st2];
    cbn [fst snd] in *;
    [| split; [by eapply same_tracking_trans | done] | done].
  pose proof (same_tracking_trans _ _ _ H1 H2) as H12.
  unfold status_field, py_get, send_message, ret, raise.
  destruct (truthy v1), v1; cbn [fst snd]; try done;
    destruct (truthy v2), v2; cbn [fst snd]; try done;
    destruct (send_reply env); done.
Qed.

Lemma while_True_tracking user_id token envs st :
  same_tracking st (while_True (monitor_iteration py_repr user_id token) envs st).2.
Proof.
  revert st. induction envs as [|env envs IH]; intros st; [done|].
  rewrite while_True_cons.
  destruct (monitor_iteration_tracking user_id token env st) as [Ht _].
  destruct (monitor_iteration py_repr user_id token env st) as [[[]|e|] st1]; try done.
  eapply same_tracking_trans; [exact Ht | apply IH].
Qed.

Lemma monitor_handlers_tracking user_id token crash_send e h st :
  monitor_handlers user_id token crash_send e = Some h →
  same_tracking st (h st).2 ∧ (h st).1 ≠ Blocked.
Proof.
  unfold monitor_handlers.
  destruct (is_CancelledError e); [by intros [= <-]|].
  destruct (is_Exception e); [by intros [= <-] | done].
Qed.

(** A polling loop touches neither dictionary nor the task table. *)
Lemma monitor_token_tracking user_id token envs crash_send st :
  same_tracking st (monitor_token py_repr user_id token envs crash_send st).2.
Proof.
  unfold monitor_token, try_except.
  pose proof (while_True_tracking user_id token envs st) as Hw.
  destruct (while_True (monitor_iteration py_repr user_id token) envs st)
    as [[[]|e|] st1]; try done.
  destruct (monitor_handlers user_id token crash_send e) as [h|] eqn:Hh; [|done].
  eapply same_tracking_trans; [exact Hw|].
  by eapply monitor_handlers_tracking.
Qed.

(** One answered round never leaves the task suspended in a handler:
    the run is blocked exactly when the loop goes round. *)
Lemma monitor_token_step user_id token env rest crash_send st :
  monitor_token py_repr user_id token (env :: rest) crash_send st
  = match monitor_token py_repr user_id token [env] crash_send st with
    | (Blocked, st') => monitor_token py_repr user_id token rest crash_send st'
    | r => r
    end.
Proof.
  unfold monitor_token, try_except. rewrite !while_True_cons.
  destruct (monitor_iteration_tracking user_id token env st) as [_ Hb].
  destruct (monitor_iteration py_repr user_id token env st) as [[[]|e|] st1];
    try done.
  destruct (monitor_handlers user_id token crash_send e) as [h|] eqn:Hh; [|done].
  destruct (monitor_handlers_tracking user_id token crash_send e h st1 Hh) as [_ Hb'].
  by destruct (h st1) as [[[]|e'|] st2].
Qed.

Lemma finish_tracking task r st :
  user_tokens (finish task r st) = user_tokens st
  ∧ monitoring_tasks (finish task r st) = monitoring_tasks st
  ∧ length (tasks (finish task r st)) = length (tasks st).
Proof. unfold finish. simpl. by rewrite length_alter. Qed.

(** Running a task changes neither dictionary. *)
Lemma run_task_tracking task env crash_send st :
  user_tokens (run_task py_repr task env crash_send st) = user_tokens st
  ∧ monitoring_tasks (run_task py_repr task env crash_send st) = monitoring_tasks st
  ∧ length (tasks (run_task py_repr task env crash_send st)) = length (tasks st).
Proof.
  unfold run_task.
  destruct (tasks st !! task) as [t|]; [|done].
  assert (Hres : ∀ env',
    let st' := (let '(r, st') := monitor_token py_repr (task_user t) (task_token t)
                                   [env'] crash_send st in finish task r st') in
    user_tokens st' = user_tokens st
    ∧ monitoring_tasks st' = monitoring_tasks st
    ∧ length (tasks st') = length (tasks st)).
  { intros env'.
    pose proof (monitor_token_tracking (task_user t) (task_token t) [env']
                  crash_send st) as (Hu & Hm & Ht).
    destruct (monitor_token py_repr (task_user t) (task_token t) [env'] crash_send st)
      as [r st1].
    cbn [fst snd] in *. cbv zeta.
    destruct (finish_tracking task r st1) as (Hfu & Hfm & Hft).
    by rewrite Hfu, Hfm, Hft, Hu, Hm, Ht. }
  destruct (task_status_of t); [| |done]; destruct (must_cancel t);
    try apply Hres; apply finish_tracking.
Qed.

End Frame.

(** A cancellation thrown in at the first await of a round ends the
    loop silently: one INFO line, a normal return. *)
Lemma monitor_token_cancelled py_repr user_id token p s rest crash_send st :
  monitor_token py_repr user_id token (mkEnv (HttpRaises cancelled) p s :: rest)
    crash_send st
  = (Ret tt,
     set_log (λ l, l ++ [(INFO, str "Monitoring stopped for token " ++ format_token token)])
             st).
Proof. reflexivity. Qed.

(** A task that was cancelled, or is done, is done after its next run. *)
Lemma run_task_observes_cancel py_repr task env crash_send st t :
  tasks st !! task = Some t →
  active t = false →
  ∃ t', tasks (run_task py_repr task env crash_send st) !! task = Some t'
        ∧ is_done t' = true
        ∧ task_user t' = task_user t
        ∧ task_token t' = task_token t.
Proof.
  intros Ht Hact. unfold run_task. rewrite Ht.
  destruct t as [u tok status c]. unfold active in Hact.
  cbn [task_status_of must_cancel task_user task_token] in *. cbv zeta.
  destruct status as [| |r].
  - destruct c; [|done]. unfold finish, set_tasks. cbn [tasks].
    rewrite list_lookup_alter_eq, Ht. simpl. eauto.
  - destruct c; [|done]. rewrite monitor_token_cancelled.
    unfold finish, set_tasks, set_log. cbn [tasks].
    rewrite list_lookup_alter_eq, Ht. simpl. eauto.
  - exists (mkTask u tok (Done r) c). by rewrite Ht.
Qed.

(** C4: [stop_monitoring] on a user with a session cancels every task
    of the session, whatever their number, and forgets the session: no
    handle is left, none of the tasks can run another round, and each
    is done after its next run; a second call, like a call without a
    session, answers "No active monitoring" and changes nothing. *)
Theorem stop_monitoring_cancels_all (user_id : Z) (st : State) :
  let r := stop_monitoring user_id st in
  match monitoring_tasks st !! user_id with
  | Some hs =>
      r.1 = STOPPED
      ∧ monitoring_tasks r.2 !! user_id = None
      ∧ handles user_id r.2 = []
      ∧ (∀ h t, h ∈ hs → tasks r.2 !! h = Some t → active t = false)
      ∧ (∀ py_repr h env crash_send t,
           h ∈ hs → tasks st !! h = Some t →
           ∃ t', tasks (run_task py_repr h env crash_send r.2) !! h = Some t'
                 ∧ is_done t' = true)
      ∧ (∀ h, h ∉ hs → tasks r.2 !! h = tasks st !! h)
      ∧ (∀ u, u ≠ user_id → monitoring_tasks r.2 !! u = monitoring_tasks st !! u)
      ∧ user_tokens r.2 = user_tokens st
      ∧ stop_monitoring user_id r.2 = (NO_ACTIVE_MONITORING, r.2)
  | None => r = (NO_ACTIVE_MONITORING, st)
  end.
Proof.
  intros r. subst r. unfold stop_monitoring.
  destruct (monitoring_tasks st !! user_id) as [hs|] eqn:Hu; [|done].
  destruct (cancel_all_frame hs st) as (Hut & Hmt & _ & _).
  unfold handles. cbn [fst snd monitoring_tasks tasks user_tokens set_monitoring_tasks].
  rewrite lookup_delete_eq.
  assert (Hmark : ∀ h t, h ∈ hs →
            tasks (foldl (λ s task, cancel task s) st hs) !! h = Some t →
            active t = false).
  { intros h t Hin. rewrite cancel_all_lookup, bool_decide_eq_true_2 by done.
    destruct (tasks st !! h); intros [= <-]. apply request_cancel_inactive. }
  split_and!; try done.
  - intros py_repr h env crash_send t Hin Ht.
    destruct (run_task_observes_cancel py_repr h env crash_send
                (set_monitoring_tasks (delete user_id)
                   (foldl (λ s task, cancel task s) st hs))
                (request_cancel t)) as (t' & Ht' & Hd & _).
    + simpl. by rewrite cancel_all_lookup, bool_decide_eq_true_2, Ht.
    + apply request_cancel_inactive.
    + eauto.
  - intros h Hin. by rewrite cancel_all_lookup, bool_decide_eq_false_2.
  - intros u Hne. by rewrite lookup_delete_ne, Hmt.
Qed.

(** C4 at a session of two tasks, one of which has already run. *)
Example stop_monitoring_scenario :
  let st := exec_all repr_unused
              [AddTokens 7 (token_a ++ [NL] ++ token_b);
               StartMonitoring 7;
               RunTask 1 (mkEnv reply_ok reply_ok Delivered) Delivered]
              initial_state in
  let r := stop_monitoring 7 st in
  handles 7 st = [0; 1]
  ∧ r.1 = STOPPED
  ∧ handles 7 r.2 = []
  ∧ monitoring_tasks r.2 !! 7%Z = None
  ∧ (task_status_of <$> tasks r.2) = [Created; Suspended]
  ∧ (must_cancel <$> tasks r.2) = [true; true]
  ∧ (stop_monitoring 7 r.2).1 = NO_ACTIVE_MONITORING
  ∧ (task_status_of <$>
       tasks (exec_all repr_unused
                [RunTask 0 (mkEnv reply_ok reply_ok Delivered) Delivered;
                 RunTask 1 (mkEnv reply_ok reply_ok Delivered) Delivered] r.2))
    = [Done (Raise cancelled); Done (Ret tt)].
Proof. vm_compute. by split_and!. Qed.

(** *** Crashes *)

Section Crash.

Variable py_repr : pyval → pystr.

Lemma monitor_iteration_raise_outbox user_id token env e st st1 :
  monitor_iteration py_repr user_id token env st = (Raise e, st1) →
  outbox st1 = outbox st.
Proof.
  destruct (ping_server_optional token (ping_reply env) st)
    as (_ & _ & _ & _ & _ & _ & _ & Ho1 & _).
  unfold monitor_iteration, bind.
  destruct (ping_server token (ping_reply env) st) as [[v1|e1|] sta];
    cbn [fst snd] in *; [| by intros [= _ <-] | done].
  destruct (get_position_optional token (position_reply env) sta)
    as (_ & _ & _ & _ & _ & _ & _ & Ho2 & _).
  destruct (get_position token (position_reply env) sta) as [[v2|e2|] stb];
    cbn [fst snd] in *; [| intros [= _ <-]; congruence | done].
  unfold status_field, py_get, send_message.
  destruct (truthy v1), v1; try done;
    destruct (truthy v2), v2; try done;
    destruct (send_reply env); try done;
    intros [= _ <-]; congruence.
Qed.

(** Whatever [Exception] an iteration raises, the handler raises
    [NameError] in its turn: the run ends with that error and no
    message has been sent since the iteration began. *)
Lemma monitor_token_crash user_id token env rest crash_send e st st1 :
  monitor_iteration py_repr user_id token env st = (Raise e, st1) →
  is_Exception e = true →
  monitor_token py_repr user_id token (env :: rest) crash_send st
  = (Raise name_error, st1)
  ∧ outbox st1 = outbox st.
Proof.
  intros Hiter He. split; [|by eapply monitor_iteration_raise_outbox].
  unfold monitor_token, try_except. rewrite while_True_cons, Hiter.
  by destruct (monitor_handlers_crash user_id token crash_send e st1 He)
    as (h & -> & ->).
Qed.

(** C10: only [start_monitoring] and [stop_monitoring] change who has
    a session; running a task, to a crash or a cancellation or
    another round, leaves the session map as it is, so a user whose
    session exists is told "already running" by a start and gets a
    successful stop, whatever has become of the loops. *)
Theorem session_membership :
  (∀ ev st u,
     is_Some (monitoring_tasks (exec py_repr ev st) !! u)
     ↔ match ev with
       | StartMonitoring u' => u = u' ∨ is_Some (monitoring_tasks st !! u)
       | StopMonitoring u' => u ≠ u' ∧ is_Some (monitoring_tasks st !! u)
       | _ => is_Some (monitoring_tasks st !! u)
       end)
  ∧ (∀ task env crash_send st,
       monitoring_tasks (run_task py_repr task env crash_send st)
       = monitoring_tasks st)
  ∧ (∀ runs st u,
       Forall (λ ev, is_run ev = true) runs →
       is_Some (monitoring_tasks st !! u) →
       let st' := exec_all py_repr runs st in
       monitoring_tasks st' = monitoring_tasks st
       ∧ (start_monitoring u st').1 = ALREADY_RUNNING
       ∧ (stop_monitoring u st').1 = STOPPED).
Proof.
  assert (Hrun : ∀ task env crash_send st,
    monitoring_tasks (run_task py_repr task env crash_send st) = monitoring_tasks st).
  { intros. apply run_task_tracking. }
  split_and!; [|exact Hrun|].
  - intros [u' text | u' i | u' | u' | task env cs] st u; simpl.
    + unfold process_tokens. by destruct (submitted_tokens text).
    + unfold handle_token_actions_remove.
      case_decide; [|done].
      by destruct (list_tokens u' st !! Z.to_nat i).
    + destruct (monitoring_tasks st !! u') as [hs|] eqn:Hu'.
      * rewrite start_monitoring_running by (by rewrite Hu'). simpl.
        split; [by right | intros [-> | ?]; [by rewrite Hu' | done]].
      * rewrite start_monitoring_fresh by done. simpl.
        rewrite lookup_insert_is_Some. split.
        -- intros [-> | [_ ?]]; [by left | by right].
        -- intros [-> | ?]; [by left |].
           destruct (decide (u' = u)) as [->|]; [by left | by right].
    + unfold stop_monitoring.
      destruct (monitoring_tasks st !! u') as [hs|] eqn:Hu'; simpl.
      * destruct (cancel_all_frame hs st) as (_ & -> & _).
        rewrite lookup_delete_is_Some. split; intros [? ?]; done.
      * split; [|by intros [_ ?]].
        intros Hs. split; [|done]. intros ->. rewrite Hu' in Hs. by destruct Hs.
    + by rewrite Hrun.
  - intros runs st u Hruns Hu st'. subst st'.
    assert (Hsame : monitoring_tasks (exec_all py_repr runs st) = monitoring_tasks st).
    { revert st Hu. induction Hruns as [|ev runs Hev _ IH]; intros st Hu; [done|].
      unfold exec_all in *. simpl.
      destruct ev; try done. simpl.
      rewrite IH by (by rewrite Hrun). apply Hrun. }
    split; [done|].
    rewrite start_monitoring_running by (by rewrite Hsame).
    split; [done|].
    unfold stop_monitoring. rewrite Hsame.
    by destruct Hu as [hs ->].
Qed.

End Crash.

(** C1 (the code at the failing input): user 7 monitors two tokens; the
    first ping answer for the first token is a JSON list, so the status
    line raises [AttributeError] inside the loop.  The handler raises
    [NameError] before it logs or sends: the task is done with that
    error, no crash notice has been sent, and the second token's loop
    still runs and reports. *)
Lemma monitor_token_crash_notice_not_sent :
  let crashing := mkEnv reply_list reply_ok Delivered in
  let fine := mkEnv reply_ok reply_ok Delivered in
  let st0 := exec_all repr_unused
               [AddTokens 7 (token_a ++ [NL] ++ token_b); StartMonitoring 7]
               initial_state in
  let st := exec_all repr_unused
              [RunTask 0 crashing Delivered; RunTask 1 fine Delivered] st0 in
  (monitor_iteration repr_unused 7 token_a crashing st0).1
    = Raise (mkExc AttributeError (str "object has no attribute 'get'"))
  ∧ (task_status_of <$> tasks st) = [Done (Raise name_error); Suspended]
  ∧ outbox st
    = [mkMessage 7 (status_update
                      (status_line repr_unused token_b (PStr (str "ok")) (PInt 12)))
                 (Some (str "Markdown"))]
  ∧ length (filter (λ m, msg_text m = crash_notice token_a) (outbox st)) = 0
  ∧ log st = []
  ∧ handles 7 st = [0; 1].
Proof. vm_compute. by split_and!. Qed.

(** C10 on a session whose two loops are both dead, one crashed on a
    malformed answer and one on a rejected send. *)
Example session_outlives_its_loops :
  let st := exec_all repr_unused
              [AddTokens 7 (token_a ++ [NL] ++ token_b);
               StartMonitoring 7;
               RunTask 0 (mkEnv reply_list reply_ok Delivered) Delivered;
               RunTask 1 (mkEnv reply_ok reply_ok forbidden) Delivered]
              initial_state in
  Forall (λ t, is_done t = true) (tasks st)
  ∧ handles 7 st = [0; 1]
  ∧ (start_monitoring 7 st).1 = ALREADY_RUNNING
  ∧ (stop_monitoring 7 st).1 = STOPPED.
Proof. vm_compute. split_and!; try done. by repeat constructor. Qed.

(** * Further properties *)

(** ** Decimal numerals *)

Lemma str_app (s t : string) : str (s +:+ t) = str s ++ str t.
Proof. induction s as [|a s IH]; [done|]. simpl. by rewrite IH. Qed.

Lemma pretty_N_char_digit (d : N) :
  (d < 10)%N →
  is_digit (N_of_ascii (pretty_N_char d)) = true
  ∧ (N_of_ascii (pretty_N_char d) - 48)%N = d.
Proof.
  intros Hd.
  assert (d = 0 ∨ d = 1 ∨ d = 2 ∨ d = 3 ∨ d = 4 ∨ d = 5 ∨ d = 6 ∨ d = 7
          ∨ d = 8 ∨ d = 9)%N as Hc by lia.
  repeat destruct Hc as [-> | Hc]; try subst d; by vm_compute.
Qed.

(** What [pretty_N_go] writes in front of [s]: digits, at least one for
    a positive number, that read back as the number. *)
Lemma pretty_N_go_digits (x : N) (s : string) :
  ∃ (ds : pystr) (k : N),
    str (pretty_N_go x s) = ds ++ str s
    ∧ Forall (λ c, is_digit c = true) ds
    ∧ ((0 < x)%N → ds ≠ [])
    ∧ ∀ acc rest, parse_digits acc (ds ++ rest) = parse_digits (acc * k + x) rest.
Proof.
  revert s. induction (N.lt_wf_0 x) as [x _ IH]. intros s.
  destruct (decide (x = 0%N)) as [->|Hpos].
  { rewrite pretty_N_go_0. exists [], 1%N. split_and!; try done; try lia.
    intros acc rest. cbn [app]. f_equal. lia. }
  rewrite pretty_N_go_step by lia.
  destruct (IH (x `div` 10)%N) with (s := String (pretty_N_char (x `mod` 10)) s)
    as (ds & k & Hstr & Hdig & _ & Hparse).
  { apply N.div_lt; lia. }
  destruct (pretty_N_char_digit (x `mod` 10)%N) as [Hd Hv].
  { apply N.mod_lt. lia. }
  exists (ds ++ [N_of_ascii (pretty_N_char (x `mod` 10))]), (k * 10)%N.
  split_and!.
  - rewrite Hstr. cbn [str]. by rewrite <- app_assoc.
  - apply Forall_app. split; [done|]. by repeat constructor.
  - intros _. by destruct ds.
  - intros acc rest. rewrite <- app_assoc, Hparse. cbn [app parse_digits]. rewrite Hd, Hv.
    f_equal. pose proof (N.div_mod x 10). lia.
Qed.

(** [str(n)] is a non-empty run of digits that reads back as [n]. *)
Lemma str_of_nat_digits (n : nat) :
  str_of_nat n ≠ []
  ∧ Forall (λ c, is_digit c = true) (str_of_nat n)
  ∧ parse_digits 0 (str_of_nat n) = Some (N.of_nat n).
Proof.
  unfold str_of_nat, pretty, pretty_nat, pretty, pretty_N.
  case_decide as Hn.
  { split_and!; [done | by repeat constructor | by rewrite Hn]. }
  destruct (pretty_N_go_digits (N.of_nat n) "") as (ds & k & Hstr & Hdig & Hne & Hparse).
  cbn [str] in Hstr. rewrite app_nil_r in Hstr. rewrite Hstr.
  split_and!; [apply Hne; lia | done |].
  specialize (Hparse 0%N []). rewrite app_nil_r in Hparse.
  rewrite Hparse. cbn [parse_digits]. f_equal.
Qed.

(** Written and read back: [int(str(n)) == n] for the decimal reader. *)
Lemma decimal_int_str_of_nat (n : nat) : decimal_int (str_of_nat n) = Ret (Z.of_nat n).
Proof.
  destruct (str_of_nat_digits n) as (Hne & _ & Hparse).
  unfold decimal_int.
  destruct (str_of_nat n) as [|c s]; [done|]. by rewrite Hparse, nat_N_Z.
Qed.

(** ** Buttons *)

Lemma is_prefix_b_app (p s : pystr) : is_prefix_b p (p ++ s) = true.
Proof. induction p as [|c p IH]; [by destruct s|]. simpl. by rewrite N.eqb_refl. Qed.

Lemma digits_not_literal (d : pystr) (c : N) (lit : pystr) :
  Forall (λ c, is_digit c = true) d → d ≠ [] →
  is_digit c = false → d ≠ c :: lit.
Proof. intros Hd Hne Hc ->. inversion Hd; congruence. Qed.


Lemma ensure_user_spec (user_id : Z) (st : State) :
  let st' := (ensure_user user_id st).2 in
  (ensure_user user_id st).1 = Ret tt
  ∧ is_Some (user_tokens st' !! user_id)
  ∧ (∀ u, list_tokens u st' = list_tokens u st)
  ∧ (∀ u, u ≠ user_id → user_tokens st' !! u = user_tokens st !! u)
  ∧ monitoring_tasks st' = monitoring_tasks st
  ∧ tasks st' = tasks st
  ∧ outbox st' = outbox st
  ∧ log st' = log st.
Proof.
  unfold ensure_user, list_tokens.
  destruct (user_tokens st !! user_id) as [l|] eqn:Hu; cbn [fst snd].
  - split_and!; try done; by rewrite Hu.
  - unfold set_user_tokens. cbn [user_tokens monitoring_tasks tasks outbox log].
    split_and!; try done.
    + rewrite lookup_insert_eq. by eexists.
    + intros u. destruct (decide (u = user_id)) as [->|Hne].
      * by rewrite lookup_insert_eq, Hu.
      * by rewrite lookup_insert_ne.
    + intros u Hne. by rewrite lookup_insert_ne.
Qed.

Section Buttons.

Variable py_repr : pyval → pystr.
Variable py_int : pystr → result Z.

(** Once acknowledged, a click is the chain run on the state with the
    user registered. *)
Lemma handle_button_click_dispatch env data user_id st :
  answer_reply env = Delivered →
  handle_button_click py_repr py_int env data user_id st
  = dispatch py_repr py_int env data user_id (ensure_user user_id st).2.
Proof.
  intros Hans. unfold handle_button_click, bind. rewrite Hans. cbn [answer ret].
  unfold ensure_user. by destruct (user_tokens st !! user_id).
Qed.

(** [int] reads the decimal numerals [str] writes. *)
Hypothesis py_int_decimal : ∀ n : nat, py_int (str_of_nat n) = Ret (Z.of_nat n).

(** A click on [f"{action}{i}"] reaches [handle_token_actions]. *)
Lemma handle_button_click_action env (action : pystr) i user_id st :
  answer_reply env = Delivered →
  action = str "remove_" ∨ action = str "info_" →
  handle_button_click py_repr py_int env (action ++ str_of_nat i) user_id st
  = (let* s := handle_token_actions py_repr py_int env (action ++ str_of_nat i) user_id in
     ret (s, END)) (ensure_user user_id st).2.
Proof.
  intros Hans Hact.
  destruct (str_of_nat_digits i) as (Hne & Hdig & _).
  rewrite handle_button_click_dispatch by done.
  generalize ((ensure_user user_id st).2). intros st0.
  unfold dispatch. cbv zeta.
  generalize dependent (str_of_nat i). intros d Hne Hdig.
  destruct Hact as [-> | ->].
  - repeat (rewrite bool_decide_eq_false_2;
            [| first [ discriminate
                     | intros [= Hd]; revert Hd; by apply digits_not_literal ] ]).
    rewrite is_prefix_b_app. done.
  - repeat (rewrite bool_decide_eq_false_2;
            [| first [ discriminate
                     | intros [= Hd]; revert Hd; by apply digits_not_literal ] ]).
    rewrite is_prefix_b_app, orb_true_r. done.
Qed.






End Buttons.


Lemma two_tokens_list : list_tokens 7 two_tokens = [token_a; token_b].
Proof. vm_compute. reflexivity. Qed.





(** ** What the handlers leave alone *)

Section Preserves.

Variable R : State → State → Prop.
Hypothesis R_refl : ∀ st, R st st.
Hypothesis R_trans : ∀ st1 st2 st3, R st1 st2 → R st2 st3 → R st1 st3.
Hypothesis R_log : ∀ f st, R st (set_log f st).
Hypothesis R_outbox : ∀ f st, R st (set_outbox f st).

Lemma preserves_ret {A} (a : A) : preserves R (ret a).
Proof using R_refl. intros st. apply R_refl. Qed.

Lemma preserves_raise {A} (e : pyexc) : preserves R (@raise A e).
Proof using R_refl. intros st. apply R_refl. Qed.

Lemma preserves_blocked {A} : preserves R (@blocked A).
Proof using R_refl. intros st. apply R_refl. Qed.

Lemma preserves_lift {A} (r : result A) : preserves R (lift r).
Proof using R_refl. intros st. apply R_refl. Qed.

Lemma preserves_logger lv text : preserves R (logger lv text).
Proof using R_log. intros st. apply R_log. Qed.

Lemma preserves_bind {A B} (m : Co A) (k : A → Co B) :
  preserves R m → (∀ a, preserves R (k a)) → preserves R (bind m k).
Proof using R_trans.
  intros Hm Hk st. unfold bind. specialize (Hm st).
  destruct (m st) as [[a|e|] st1]; try done.
  eapply R_trans; [exact Hm | apply Hk].
Qed.

Lemma preserves_try_except {A} (body : Co A) (handler : pyexc → option (Co A)) :
  preserves R body →
  (∀ e h, handler e = Some h → preserves R h) →
  preserves R (try_except body handler).
Proof using R_trans.
  intros Hb Hh st. unfold try_except. specialize (Hb st).
  destruct (body st) as [[a|e|] st1]; try done.
  destruct (handler e) as [h|] eqn:He; [|done].
  eapply R_trans; [exact Hb | by eapply Hh].
Qed.

Lemma preserves_show r s : preserves R (show r s).
Proof using R_refl. intros st. destruct r; apply R_refl. Qed.

Lemma preserves_answer r : preserves R (answer r).
Proof using R_refl. intros st. destruct r; apply R_refl. Qed.

Lemma preserves_send_message r user_id text mode :
  preserves R (send_message r user_id text mode).
Proof using R_refl R_outbox. intros st. destruct r; [apply R_outbox | apply R_refl]. Qed.

Lemma preserves_except_Exception {A} (k : pyexc → Co A) :
  (∀ e, preserves R (k e)) →
  ∀ e h, except_Exception k e = Some h → preserves R h.
Proof.
  intros Hk e h. unfold except_Exception.
  destruct (is_Exception e); [|done]. intros [= <-]. apply Hk.
Qed.

Lemma preserves_get_position token reply : preserves R (get_position token reply).
Proof using R_refl R_trans R_log.
  unfold get_position. apply preserves_try_except.
  - destruct reply as [e | status [v | e]]; try apply preserves_raise;
      (destruct (status =? 200)%Z;
       [ first [apply preserves_ret | apply preserves_raise]
       | apply preserves_bind; [apply preserves_logger | intros; apply preserves_ret] ]).
  - apply preserves_except_Exception. intros e.
    apply preserves_bind; [apply preserves_logger | intros; apply preserves_ret].
Qed.

Lemma preserves_ping_server token reply : preserves R (ping_server token reply).
Proof using R_refl R_trans R_log.
  unfold ping_server. apply preserves_try_except.
  - destruct reply as [e | status [v | e]]; try apply preserves_raise;
      (destruct (status =? 200)%Z;
       [ first [apply preserves_ret | apply preserves_raise]
       | apply preserves_bind; [apply preserves_logger | intros; apply preserves_ret] ]).
  - apply preserves_except_Exception. intros e.
    apply preserves_bind; [apply preserves_logger | intros; apply preserves_ret].
Qed.

Lemma preserves_py_get data key dflt : preserves R (py_get data key dflt).
Proof using R_refl.
  unfold py_get. destruct data; first [apply preserves_ret | apply preserves_raise].
Qed.

Lemma preserves_status_field data key : preserves R (status_field data key).
Proof using R_refl.
  unfold status_field. destruct (truthy data);
    [apply preserves_py_get | apply preserves_ret].
Qed.

Lemma preserves_behind_field position : preserves R (behind_field position).
Proof using R_refl.
  unfold behind_field. destruct (truthy position);
    [apply preserves_py_get | apply preserves_ret].
Qed.

Variable py_repr : pyval → pystr.

Lemma preserves_positions_loop tokens :
  ∀ replies response, preserves R (positions_loop py_repr tokens replies response).
Proof using R_refl R_trans R_log.
  induction tokens as [|token tokens IH]; intros replies response.
  - apply preserves_ret.
  - destruct replies as [|reply more]; [apply preserves_blocked|].
    cbn [positions_loop].
    apply preserves_bind; [apply preserves_get_position|]. intros position.
    apply preserves_bind; [apply preserves_behind_field|]. intros behind.
    apply IH.
Qed.

Lemma preserves_fetch_positions env user_id :
  preserves R (fetch_positions py_repr env user_id).
Proof using R_refl R_trans R_log R_outbox.
  intros st. unfold fetch_positions.
  destruct (list_tokens user_id st) as [|t ts].
  - apply preserves_send_message.
  - apply preserves_bind; [apply preserves_positions_loop|].
    intros response. apply preserves_send_message.
Qed.

Lemma preserves_show_token_info ping_r position_r r token :
  preserves R (show_token_info py_repr ping_r position_r r token).
Proof using R_refl R_trans R_log.
  unfold show_token_info.
  apply preserves_bind; [apply preserves_ping_server|]. intros ping.
  apply preserves_bind; [apply preserves_get_position|]. intros position.
  apply preserves_bind; [apply preserves_status_field|]. intros f1.
  apply preserves_bind; [apply preserves_status_field|]. intros f2.
  apply preserves_show.
Qed.

Lemma preserves_show_remove_menu r user_id : preserves R (show_remove_menu r user_id).
Proof using R_refl.
  intros st. unfold show_remove_menu.
  destruct (list_tokens user_id st); apply preserves_show.
Qed.

Lemma preserves_show_info_menu r user_id : preserves R (show_info_menu r user_id).
Proof using R_refl.
  intros st. unfold show_info_menu.
  destruct (list_tokens user_id st); apply preserves_show.
Qed.

Lemma preserves_monitor_iteration user_id token env :
  preserves R (monitor_iteration py_repr user_id token env).
Proof using R_refl R_trans R_log R_outbox.
  unfold monitor_iteration.
  apply preserves_bind; [apply preserves_ping_server|]. intros ping.
  apply preserves_bind; [apply preserves_get_position|]. intros position.
  apply preserves_bind; [apply preserves_status_field|]. intros f1.
  apply preserves_bind; [apply preserves_status_field|]. intros f2.
  apply preserves_send_message.
Qed.

Lemma preserves_while_True (body : iter_env → Co unit) envs :
  (∀ env, preserves R (body env)) → preserves R (while_True body envs).
Proof using R_refl R_trans.
  intros Hbody. induction envs as [|env envs IH].
  - apply preserves_blocked.
  - cbn [while_True]. apply preserves_bind; [apply Hbody | intros; apply IH].
Qed.

Lemma preserves_monitor_token user_id token envs crash_send :
  preserves R (monitor_token py_repr user_id token envs crash_send).
Proof using R_refl R_trans R_log R_outbox.
  unfold monitor_token. apply preserves_try_except.
  - apply preserves_while_True. intros env. apply preserves_monitor_iteration.
  - intros e h. unfold monitor_handlers.
    destruct (is_CancelledError e); [intros [= <-]; apply preserves_logger|].
    destruct (is_Exception e); [|done]. intros [= <-].
    apply preserves_bind; [apply preserves_raise|]. intros tb.
    apply preserves_bind; [apply preserves_logger|]. intros _.
    apply preserves_send_message.
Qed.

End Preserves.

Lemma same_registry_rel : frame_rel same_registry.
Proof. unfold frame_rel, same_registry. split_and!; try done. intros; congruence. Qed.

Lemma same_sessions_rel : frame_rel same_sessions.
Proof.
  unfold frame_rel, same_sessions. split_and!; try done.
  intros ??? [??] [??]. split; congruence.
Qed.

Lemma same_list_rel user_id : frame_rel (same_list user_id).
Proof. unfold frame_rel, same_list. split_and!; try done. intros; congruence. Qed.

Lemma same_registry_but_rel user_id : frame_rel (same_registry_but user_id).
Proof.
  unfold frame_rel, same_registry_but. split_and!; try done.
  intros ??? [H1 H1'] [H2 H2']. split; [auto|].
  intros u Hu. by rewrite H2', H1'.
Qed.

Lemma same_registry_weaken user_id st st' :
  same_registry st st' → same_registry_but user_id st st'.
Proof. unfold same_registry, same_registry_but. intros ->. done. Qed.

Lemma start_monitoring_registry user_id st :
  user_tokens (start_monitoring user_id st).2 = user_tokens st.
Proof.
  destruct (monitoring_tasks st !! user_id) as [hs|] eqn:Hu.
  - by rewrite start_monitoring_running by (by rewrite Hu).
  - by rewrite start_monitoring_fresh.
Qed.

Lemma stop_monitoring_registry user_id st :
  user_tokens (stop_monitoring user_id st).2 = user_tokens st.
Proof.
  unfold stop_monitoring.
  destruct (monitoring_tasks st !! user_id) as [hs|]; [|done].
  cbn [snd]. unfold set_monitoring_tasks. cbn [user_tokens].
  apply cancel_all_frame.
Qed.

Lemma remove_effects index user_id st :
  let st' := (handle_token_actions_remove index user_id st).2 in
  same_registry_but user_id st st' ∧ same_sessions st st'.
Proof.
  unfold handle_token_actions_remove, same_registry_but, same_sessions.
  case_decide; [|done].
  destruct (list_tokens user_id st !! Z.to_nat index); [|done].
  cbn [snd]. unfold set_user_tokens. cbn [user_tokens monitoring_tasks tasks].
  split_and!; try done.
  - intros _. rewrite lookup_insert_eq. by eexists.
  - intros u Hu. by rewrite lookup_insert_ne.
Qed.

Section Click.

Variable py_repr : pyval → pystr.
Variable py_int : pystr → result Z.

Lemma preserves_shown R env (h : State → pystr * State) :
  frame_rel R → (∀ st, R st (h st).2) → preserves R (shown env h).
Proof.
  intros (Hr & Ht & Hl & Ho) Hh. unfold shown.
  apply preserves_bind; [done | |].
  - intros st. specialize (Hh st). by destruct (h st).
  - intros text. apply preserves_bind; [done | by apply preserves_show |].
    intros s. by apply preserves_ret.
Qed.

(** [handle_token_actions] under a relation that the removal keeps, or
    for a button that is not a removal. *)
Lemma preserves_handle_token_actions R env data user_id :
  frame_rel R →
  (is_prefix_b (str "remove_") data = true →
   ∀ index st, R st (handle_token_actions_remove index user_id st).2) →
  preserves R (handle_token_actions py_repr py_int env data user_id).
Proof.
  intros HR Hrem st. pose proof HR as (Hr & Ht & Hl & Ho).
  unfold handle_token_actions.
  destruct (is_prefix_b (str "remove_") data) eqn:Hp.
  - apply preserves_bind; [done | by apply preserves_lift |]. intros index.
    apply preserves_bind; [done | |].
    + intros st1. specialize (Hrem eq_refl index st1).
      by destruct (handle_token_actions_remove index user_id st1).
    + intros text. apply preserves_bind; [done | by apply preserves_show |].
      intros s. by apply preserves_ret.
  - destruct (is_prefix_b (str "info_") data); [|apply Hr].
    apply preserves_bind; [done | by apply preserves_lift |]. intros index.
    case_decide.
    + destruct (list_tokens user_id st !! Z.to_nat index) as [token|];
        [|by apply preserves_blocked].
      destruct (remote_replies env) as [|ping_r [|position_r more]].
      * by apply preserves_blocked.
      * apply preserves_bind; [done | by apply preserves_ping_server |].
        intros _. by apply preserves_blocked.
      * apply preserves_bind; [done | by apply preserves_show_token_info |].
        intros s. by apply preserves_ret.
    + apply preserves_bind; [done | by apply preserves_show |].
      intros s. by apply preserves_ret.
Qed.

(** [handle_button_click] keeps every relation that its branches keep. *)
Lemma preserves_handle_button_click R env data user_id :
  frame_rel R →
  (∀ st, R st (ensure_user user_id st).2) →
  (data = str "start_monitoring" → ∀ st, R st (start_monitoring user_id st).2) →
  (data = str "stop_monitoring" → ∀ st, R st (stop_monitoring user_id st).2) →
  (data ≠ str "remove_tokens" → is_prefix_b (str "remove_") data = true →
   ∀ index st, R st (handle_token_actions_remove index user_id st).2) →
  preserves R (handle_button_click py_repr py_int env data user_id).
Proof.
  intros HR Hens Hstart Hstop Hrem. pose proof HR as (Hr & Ht & Hl & Ho).
  unfold handle_button_click.
  apply preserves_bind; [done | by apply preserves_answer |]. intros _.
  apply preserves_bind; [done | exact Hens |]. intros _.
  unfold dispatch. cbv zeta.
  repeat case_bool_decide.
  all: try (apply preserves_bind; [done | | intros; by apply preserves_ret]).
  all: try (by apply preserves_show).
  all: try (by apply preserves_show_remove_menu).
  all: try (by apply preserves_show_info_menu).
  all: try (by apply preserves_fetch_positions).
  all: try (apply preserves_shown; by auto).
  destruct (is_prefix_b (str "remove_") data || is_prefix_b (str "info_") data).
  - apply preserves_bind; [done | | intros; by apply preserves_ret].
    apply preserves_handle_token_actions; auto.
  - by apply preserves_ret.
Qed.

Lemma bind_ret_code {A B} (m : Co A) (f : A → B) (code : Z) :
  returns_code code (let* a := m in ret (f a, code)).
Proof.
  intros st b c. unfold bind, ret.
  destruct (m st) as [[a|e|] st1]; cbn [fst]; [|done|done]. by intros [= _ <-].
Qed.

Lemma bind_returns_code {A B} (m : Co A) (k : A → Co (B * Z)) (code : Z) :
  (∀ a, returns_code code (k a)) → returns_code code (bind m k).
Proof.
  intros Hk st b c. unfold bind.
  destruct (m st) as [[a|e|] st1]; cbn [fst]; [|done|done]. apply Hk.
Qed.

(** The conversation is entered by the button "add_tokens" and by no
    other: every other click that returns ends it. *)
Lemma handle_button_click_code env data user_id st s code :
  (handle_button_click py_repr py_int env data user_id st).1 = Ret (s, code) →
  code = if bool_decide (data = str "add_tokens") then AWAITING_TOKENS else END.
Proof.
  case_bool_decide as Hdata.
  - subst data.
    assert (Hall : returns_code AWAITING_TOKENS
              (handle_button_click py_repr py_int env (str "add_tokens") user_id)).
    { unfold handle_button_click.
      apply bind_returns_code. intros _. apply bind_returns_code. intros _.
      unfold dispatch. cbv zeta.
      rewrite (bool_decide_eq_false_2 (str "add_tokens" = str "tokens")) by done.
      rewrite (bool_decide_eq_true_2 (str "add_tokens" = str "add_tokens")) by done.
      apply bind_ret_code. }
    intros Hr. by apply Hall in Hr.
  - assert (Hall : returns_code END
              (handle_button_click py_repr py_int env data user_id)).
    { unfold handle_button_click.
      apply bind_returns_code. intros _. apply bind_returns_code. intros _.
      unfold dispatch. cbv zeta.
      repeat case_bool_decide; try done; try apply bind_ret_code.
      destruct (is_prefix_b (str "remove_") data || is_prefix_b (str "info_") data).
      - apply bind_ret_code.
      - intros st0 a c. by intros [= _ <-]. }
    intros Hr. by apply Hall in Hr.
Qed.

(** X4: what a button click can do.  If the acknowledgement is refused
    nothing happens at all.  Otherwise the user is registered
    afterwards, however the click ends; nobody else's tokens change;
    the user's own change only by a removal button; the sessions and
    the tasks change only by the two monitoring buttons; and a click
    that returns returns [AWAITING_TOKENS] for "add_tokens" and
    [ConversationHandler.END] for everything else. *)
Theorem handle_button_click_effects env data user_id st :
  let r := handle_button_click py_repr py_int env data user_id st in
  match answer_reply env with
  | Rejected e => r = (Raise e, st)
  | Delivered =>
      is_Some (user_tokens r.2 !! user_id)
      ∧ (∀ u, u ≠ user_id → user_tokens r.2 !! u = user_tokens st !! u)
      ∧ (is_prefix_b (str "remove_") data = false ∨ data = str "remove_tokens" →
         list_tokens user_id r.2 = list_tokens user_id st)
      ∧ (data ≠ str "start_monitoring" → data ≠ str "stop_monitoring" →
         monitoring_tasks r.2 = monitoring_tasks st ∧ tasks r.2 = tasks st)
      ∧ (∀ s code, r.1 = Ret (s, code) →
           code = if bool_decide (data = str "add_tokens")
                  then AWAITING_TOKENS else END)
  end.
Proof.
  intros r. subst r.
  destruct (answer_reply env) as [|e] eqn:Hans.
  2:{ unfold handle_button_click, bind at 1. by rewrite Hans. }
  destruct (ensure_user_spec user_id st) as (Hret & Hsome & Hlist & Hothers & Hm & Ht & _).
  assert (Hbut : preserves (same_registry_but user_id)
                   (handle_button_click py_repr py_int env data user_id)).
  { apply preserves_handle_button_click.
    - apply same_registry_but_rel.
    - intros st1. destruct (ensure_user_spec user_id st1) as (_ & ? & _ & ? & _). done.
    - intros _ st1. apply same_registry_weaken, start_monitoring_registry.
    - intros _ st1. apply same_registry_weaken, stop_monitoring_registry.
    - intros _ _ index st1. apply remove_effects. }
  split_and!.
  - (* the click on [st] is the click on [st] with the user registered *)
    set (st0 := (ensure_user user_id st).2) in *.
    assert (Hens : ensure_user user_id st = (Ret tt, st0)).
    { subst st0. destruct (ensure_user user_id st) as [r1 s1].
      cbn [fst snd] in *. by subst r1. }
    assert (Hens0 : ensure_user user_id st0 = (Ret tt, st0)).
    { unfold ensure_user. by destruct Hsome as [l ->]. }
    assert (Hsame : handle_button_click py_repr py_int env data user_id st
                    = handle_button_click py_repr py_int env data user_id st0).
    { rewrite !handle_button_click_dispatch by done. by rewrite Hens0. }
    rewrite Hsame. by apply (Hbut st0).
  - intros u Hu. by apply (Hbut st).
  - intros Hdata.
    apply (preserves_handle_button_click (same_list user_id) env data user_id
             (same_list_rel user_id)).
    + intros st1. apply ensure_user_spec.
    + intros _ st1. unfold same_list, list_tokens.
      by rewrite start_monitoring_registry.
    + intros _ st1. unfold same_list, list_tokens.
      by rewrite stop_monitoring_registry.
    + intros Hne Hp. destruct Hdata as [Hf | ->]; [congruence | done].
  - intros Hstart Hstop.
    apply (preserves_handle_button_click same_sessions env data user_id
             same_sessions_rel); try done.
    + intros st1. destruct (ensure_user_spec user_id st1) as (_ & _ & _ & _ & ? & ? & _).
      done.
    + intros _ _ index st1. apply remove_effects.
  - intros s code. apply handle_button_click_code.
Qed.

End Click.

(** ** Position report *)

Lemma py_get_displayable (v : pyval) (key missing : pystr) st :
  displayable v = true →
  (if truthy v then py_get v key (PStr missing) else ret (PStr (str "Error"))) st
  = (Ret (shown_value key missing v), st).
Proof.
  unfold displayable, shown_value, py_get. intros Hd.
  destruct v as [|b|z|q|s|l|[|item items]]; cbn [truthy] in *; try done.
  - by destruct b.
  - by destruct (negb (z =? 0)%Z).
  - by destruct (negb (Qnum q =? 0)%Z).
  - by destruct (negb (bool_decide (s = []))).
  - by destruct l.
Qed.

Lemma py_get_not_displayable (v : pyval) (key missing : pystr) st :
  displayable v = false →
  (if truthy v then py_get v key (PStr missing) else ret (PStr (str "Error"))) st
  = (Raise no_get, st).
Proof.
  unfold displayable, py_get. intros Hd.
  destruct v as [|b|z|q|s|l|[|item items]]; cbn [truthy] in *; try done.
  - by destruct b.
  - by destruct (negb (z =? 0)%Z).
  - by destruct (negb (Qnum q =? 0)%Z).
  - by destruct (negb (bool_decide (s = []))).
  - by destruct l.
Qed.

(** What a call that returns [v] does to the state. *)
Lemma get_position_returns token reply v st :
  returns_value get_position token reply v →
  ∃ st', get_position token reply st = (Ret v, st')
         ∧ user_tokens st' = user_tokens st
         ∧ monitoring_tasks st' = monitoring_tasks st
         ∧ tasks st' = tasks st
         ∧ outbox st' = outbox st.
Proof.
  intros Hv. specialize (Hv st).
  destruct (get_position_optional token reply st)
    as (_ & _ & _ & _ & Hu & Hm & Ht & Ho & _).
  destruct (get_position token reply st) as [r st']. cbn [fst snd] in *.
  subst r. by exists st'.
Qed.

Section Report.

Variable py_repr : pyval → pystr.

Lemma positions_loop_lines tokens replies vs :
  Forall3 reportable tokens replies vs →
  ∀ more_tokens more_replies response st,
    ∃ st', positions_loop py_repr (tokens ++ more_tokens) (replies ++ more_replies)
             response st
           = positions_loop py_repr more_tokens more_replies
               (response ++ zip_with (position_line py_repr) tokens vs) st'
           ∧ user_tokens st' = user_tokens st
           ∧ monitoring_tasks st' = monitoring_tasks st
           ∧ tasks st' = tasks st
           ∧ outbox st' = outbox st.
Proof.
  induction 1 as [|token reply v tokens replies vs [Hv Hd] _ IH];
    intros more_tokens more_replies response st.
  - exists st. by rewrite app_nil_r.
  - destruct (get_position_returns token reply v st Hv)
      as (st1 & Hcall & Hu & Hm & Ht & Ho).
    destruct (IH more_tokens more_replies
                (response ++ [position_line py_repr token v]) st1)
      as (st' & Hloop & Hu' & Hm' & Ht' & Ho').
    exists st'. split_and!; try congruence.
    rewrite <- !app_comm_cons. cbn [positions_loop]. unfold bind at 1.
    rewrite Hcall. unfold bind at 1, behind_field.
    rewrite py_get_displayable by done.
    etrans; [|etrans; [exact Hloop|]].
    + reflexivity.
    + cbn [zip_with]. by rewrite <- app_assoc.
Qed.

(** X5: the position report.  Without tokens the user is told so and no
    remote call is made.  With tokens, and every reply one the report
    can show, exactly one message goes out: the header and one line per
    token, in the order of the registry, each with the redacted token.
    The registry, the sessions and the tasks are untouched. *)
Theorem fetch_positions_report env user_id st vs :
  show_reply env = Delivered →
  list_tokens user_id st = []
  ∨ Forall3 reportable (list_tokens user_id st) (remote_replies env) vs →
  let tokens := list_tokens user_id st in
  let r := fetch_positions py_repr env user_id st in
  let text := match tokens with
              | [] => NO_TOKENS_REGISTERED
              | _ => join_lines (REPORT_HEADER :: zip_with (position_line py_repr) tokens vs)
              end in
  r.1 = Ret tt
  ∧ outbox r.2 = outbox st ++ [mkMessage user_id text None]
  ∧ (tokens = [] → log r.2 = log st)
  ∧ user_tokens r.2 = user_tokens st
  ∧ monitoring_tasks r.2 = monitoring_tasks st
  ∧ tasks r.2 = tasks st.
Proof.
  intros Hshow Hcases tokens r text. subst r text tokens.
  unfold fetch_positions. rewrite Hshow.
  destruct (list_tokens user_id st) as [|t ts] eqn:Htok; [done|].
  destruct Hcases as [Hnil | Hall]; [done|].
  destruct (positions_loop_lines _ _ _ Hall [] [] [REPORT_HEADER] st)
    as (st' & Hloop & Hu & Hm & Ht & Ho).
  rewrite !app_nil_r in Hloop.
  unfold bind. rewrite Hloop. cbn [positions_loop ret send_message].
  cbn [fst snd outbox user_tokens monitoring_tasks tasks set_outbox].
  split_and!; try done. by rewrite Ho.
Qed.

(** X6: one reply the report cannot show spoils it all: the command ends
    with the error of [.get], and nothing is sent, not even the lines
    of the tokens before. *)
Theorem fetch_positions_all_or_nothing env user_id st
    before token after replies_before reply replies_after vs v :
  list_tokens user_id st = before ++ token :: after →
  remote_replies env = replies_before ++ reply :: replies_after →
  Forall3 reportable before replies_before vs →
  returns_value get_position token reply v →
  displayable v = false →
  let r := fetch_positions py_repr env user_id st in
  r.1 = Raise no_get
  ∧ outbox r.2 = outbox st
  ∧ user_tokens r.2 = user_tokens st
  ∧ monitoring_tasks r.2 = monitoring_tasks st
  ∧ tasks r.2 = tasks st.
Proof.
  intros Htok Hrep Hall Hv Hd r. subst r.
  unfold fetch_positions. rewrite Htok, Hrep.
  assert (Hrun : ∀ response, ∃ st1,
    positions_loop py_repr (before ++ token :: after)
      (replies_before ++ reply :: replies_after) response st
    = (Raise no_get, st1)
    ∧ outbox st1 = outbox st
    ∧ user_tokens st1 = user_tokens st
    ∧ monitoring_tasks st1 = monitoring_tasks st
    ∧ tasks st1 = tasks st).
  { intros response.
    destruct (positions_loop_lines _ _ _ Hall (token :: after)
                (reply :: replies_after) response st)
      as (st' & Hloop & Hu & Hm & Ht & Ho).
    destruct (get_position_returns token reply v st' Hv)
      as (st1 & Hcall & Hu1 & Hm1 & Ht1 & Ho1).
    exists st1. split_and!; try congruence.
    rewrite Hloop. cbn [positions_loop]. unfold bind at 1.
    rewrite Hcall. unfold bind at 1, behind_field.
    by rewrite py_get_not_displayable. }
  destruct (Hrun [REPORT_HEADER]) as (st1 & Heq & Ho & Hu & Hm & Ht).
  destruct (before ++ token :: after) as [|t0 ts0] eqn:Hb;
    [by destruct before|].
  unfold bind. rewrite Heq. done.
Qed.

End Report.

(** X5 for the tokens a and b, the first with a
    position, the second with a failing remote call. *)
Lemma fetch_positions_report_witness :
  let env := mkClick Delivered [reply_ok; reply_503] Delivered in
  let r := fetch_positions repr_unused env 7 two_tokens in
  r.1 = Ret tt
  ∧ outbox r.2
    = [mkMessage 7 (join_lines [REPORT_HEADER;
                                [8226%N] ++ str " ...aa1111: 12";
                                [8226%N] ++ str " ...bb2222: Error"]) None].
Proof.
  pose proof (fetch_positions_report repr_unused
                (mkClick Delivered [reply_ok; reply_503] Delivered) 7 two_tokens
                [body_ok; PNone] eq_refl) as H.
  cbv zeta in H. rewrite two_tokens_list in H.
  destruct H as (H1 & H2 & _).
  { right. repeat constructor; by intros st. }
  split; [exact H1 | exact H2].
Defined.

(** X6 for the tokens a and b, the second
    answered with a JSON list. *)
Lemma fetch_positions_all_or_nothing_witness :
  let env := mkClick Delivered [reply_ok; reply_list] Delivered in
  let r := fetch_positions repr_unused env 7 two_tokens in
  r.1 = Raise no_get ∧ outbox r.2 = [].
Proof.
  pose proof (fetch_positions_all_or_nothing repr_unused
                (mkClick Delivered [reply_ok; reply_list] Delivered) 7 two_tokens
                [token_a] token_b [] [reply_ok] reply_list [] [body_ok] (PList [PInt 1])
                two_tokens_list eq_refl) as H.
  destruct H as (H1 & H2 & _).
  - repeat constructor; by intros st.
  - by intros st.
  - done.
  - split; [exact H1 | exact H2].
Defined.

(** ** One round of the polling loop *)

Lemma ping_server_returns token reply v st :
  returns_value ping_server token reply v →
  ∃ st', ping_server token reply st = (Ret v, st')
         ∧ user_tokens st' = user_tokens st
         ∧ monitoring_tasks st' = monitoring_tasks st
         ∧ tasks st' = tasks st
         ∧ outbox st' = outbox st.
Proof.
  intros Hv. specialize (Hv st).
  destruct (ping_server_optional token reply st)
    as (_ & _ & _ & _ & Hu & Hm & Ht & Ho & _).
  destruct (ping_server token reply st) as [r st']. cbn [fst snd] in *.
  subst r. by exists st'.
Qed.

Section Round.

Variable py_repr : pyval → pystr.


(** X8: a cancellation is silent wherever it arrives: if the round raises
    [CancelledError], at either remote call or at the send, the loop
    returns normally with one INFO line that names the redacted token,
    and no message has gone out in that round. *)
Theorem monitor_token_cancel_anywhere user_id token env rest crash_send e st st1 :
  monitor_iteration py_repr user_id token env st = (Raise e, st1) →
  is_CancelledError e = true →
  monitor_token py_repr user_id token (env :: rest) crash_send st
  = (Ret tt,
     set_log (λ l, l ++ [(INFO, str "Monitoring stopped for token " ++ format_token token)])
             st1)
  ∧ outbox st1 = outbox st.
Proof.
  intros Hiter He. split; [|by eapply monitor_iteration_raise_outbox].
  unfold monitor_token, try_except. rewrite while_True_cons, Hiter.
  unfold monitor_handlers. by rewrite He.
Qed.

End Round.


(** X8 with the cancellation thrown in at
    the position call, after a ping that was answered. *)
Lemma monitor_token_cancel_anywhere_witness :
  let env := mkEnv reply_ok (HttpRaises cancelled) Delivered in
  let run := monitor_token repr_unused 7 token_a [env] Delivered initial_state in
  run.1 = Ret tt
  ∧ outbox run.2 = []
  ∧ log run.2 = [(INFO, str "Monitoring stopped for token ...aa1111")].
Proof.
  pose proof (monitor_token_cancel_anywhere repr_unused 7 token_a
    (mkEnv reply_ok (HttpRaises cancelled) Delivered) [] Delivered cancelled
    initial_state initial_state eq_refl eq_refl) as (H1 & _).
  cbv zeta. by rewrite H1.
Defined.

(** ** The info button *)

Section Info.

Variable py_repr : pyval → pystr.
Variable py_int : pystr → result Z.

(** [int] reads the decimal numerals [str] writes. *)
Hypothesis py_int_decimal : ∀ n : nat, py_int (str_of_nat n) = Ret (Z.of_nat n).

(** X9: pressing the button [info_<i>].  Out of range the answer is
    "Invalid token selection".  In range, with both remote calls
    returning, the screen has three lines, the redacted token, the
    status and the position, and a Back button to the info menu; a
    field shows the entry of the dict, "N/A" for a dict without it and
    "Error" for a result that counts as false.  A result that counts as
    true and is no dict makes the click raise the error of [.get].
    The user's tokens are as they were in every case. *)
Theorem click_info env i user_id st :
  answer_reply env = Delivered →
  show_reply env = Delivered →
  let tokens := list_tokens user_id st in
  let r := handle_button_click py_repr py_int env (str "info_" ++ str_of_nat i)
             user_id st in
  match tokens !! i with
  | None => r.1 = Ret (Some (mkScreen INVALID_SELECTION None), END)
  | Some token =>
      ∀ ping_r position_r more v1 v2,
        remote_replies env = ping_r :: position_r :: more →
        returns_value ping_server token ping_r v1 →
        returns_value get_position token position_r v2 →
        if displayable v1 && displayable v2 then
          r.1 = Ret (Some (mkScreen
                       (join_lines
                          [ [128272%N] ++ str " Token: " ++ format_token token;
                            [128994%N] ++ str " Status: "
                            ++ py_format py_repr (shown_value (str "status") (str "N/A") v1);
                            [128204%N] ++ str " Position: "
                            ++ py_format py_repr (shown_value (str "behind") (str "N/A") v2) ])
                       (Some [[mkButton (str "Back") (str "token_info")]])), END)
        else r.1 = Raise no_get
  end
  ∧ list_tokens user_id r.2 = tokens.
Proof using py_int_decimal.
  intros Hans Hshow tokens r. split; cycle 1.
  { subst r.
    apply (preserves_handle_button_click py_repr py_int (same_list user_id)).
    - apply same_list_rel.
    - intros st0. destruct (ensure_user_spec user_id st0) as (_ & _ & Hl & _).
      apply Hl.
    - intros _ st0. unfold same_list, list_tokens.
      by rewrite start_monitoring_registry.
    - intros _ st0. unfold same_list, list_tokens.
      by rewrite stop_monitoring_registry.
    - intros _ Hp. change (false = true) in Hp. done. }
  destruct (ensure_user_spec user_id st) as (_ & _ & Hl & _ & _ & _ & _ & _).
  set (st' := (ensure_user user_id st).2) in *.
  assert (Hr : r = (let* s := handle_token_actions py_repr py_int env
                                (str "info_" ++ str_of_nat i) user_id in
                    ret (s, END)) st').
  { subst r. by rewrite (handle_button_click_action py_repr py_int) by auto. }
  unfold handle_token_actions, bind at 1 in Hr.
  change (is_prefix_b (str "remove_") (str "info_" ++ str_of_nat i)) with false in Hr.
  rewrite is_prefix_b_app in Hr. unfold bind at 1, lift in Hr.
  rewrite drop_app_length' in Hr by done. rewrite py_int_decimal in Hr.
  rewrite Hl in Hr. fold tokens in Hr. rewrite Nat2Z.id in Hr.
  destruct (tokens !! i) as [token|] eqn:Hi.
  - rewrite decide_True in Hr by (apply lookup_lt_Some in Hi; lia).
    intros ping_r position_r more v1 v2 Hrep H1 H2. rewrite Hrep in Hr.
    destruct (ping_server_returns token ping_r v1 st' H1)
      as (st1 & Hping & _ & _ & _ & _).
    destruct (get_position_returns token position_r v2 st1 H2)
      as (st2 & Hpos & _ & _ & _ & _).
    unfold show_token_info in Hr. unfold bind at 1 in Hr. unfold bind at 1 in Hr.
    rewrite Hping in Hr. unfold bind at 1 in Hr. rewrite Hpos in Hr.
    unfold bind at 1, status_field in Hr.
    destruct (displayable v1) eqn:Hd1.
    + rewrite py_get_displayable in Hr by done. unfold bind at 1 in Hr.
      destruct (displayable v2) eqn:Hd2.
      * rewrite py_get_displayable in Hr by done. rewrite Hshow in Hr.
        by rewrite Hr.
      * rewrite py_get_not_displayable in Hr by done. by rewrite Hr.
    + rewrite py_get_not_displayable in Hr by done. by rewrite Hr.
  - rewrite decide_False in Hr by (apply lookup_ge_None in Hi; lia).
    rewrite Hshow in Hr. by rewrite Hr.
Qed.

End Info.

(** X9 on the list [a; b]: the first token, with a ping that
    is answered and a position call that fails. *)
Lemma click_info_witness :
  let env := mkClick Delivered [reply_ok; reply_503] Delivered in
  (handle_button_click repr_unused decimal_int env (str "info_0") 7 two_tokens).1
  = Ret (Some (mkScreen
                 (join_lines [ [128272%N] ++ str " Token: ...aa1111";
                               [128994%N] ++ str " Status: ok";
                               [128204%N] ++ str " Position: Error" ])
                 (Some [[mkButton (str "Back") (str "token_info")]])), END).
Proof.
  pose proof (click_info repr_unused decimal_int decimal_int_str_of_nat
                (mkClick Delivered [reply_ok; reply_503] Delivered) 0 7 two_tokens
                eq_refl eq_refl) as H.
  cbv zeta in H. rewrite two_tokens_list in H. destruct H as (H & _).
  specialize (H reply_ok reply_503 [] body_ok PNone eq_refl
                (λ _, eq_refl) (λ _, eq_refl)).
  exact H.
Defined.

(** ** Session bookkeeping *)

Section Bookkeeping.

Variable py_repr : pyval → pystr.

Lemma run_task_shape task env crash_send st :
  tasks (run_task py_repr task env crash_send st) = tasks st
  ∨ ∃ r, tasks (run_task py_repr task env crash_send st)
         = alter (finished r) task (tasks st).
Proof.
  unfold run_task. destruct (tasks st !! task) as [t|]; [|by left].
  assert (Hres : ∀ env',
    ∃ r, tasks (let '(r, st') := monitor_token py_repr (task_user t) (task_token t)
                                   [env'] crash_send st in finish task r st')
         = alter (finished r) task (tasks st)).
  { intros env'.
    pose proof (monitor_token_tracking py_repr (task_user t) (task_token t) [env']
                  crash_send st) as (_ & _ & Ht).
    destruct (monitor_token py_repr (task_user t) (task_token t) [env'] crash_send st)
      as [r st1].
    exists r. cbn [snd] in Ht. unfold finish, set_tasks. cbn [tasks]. by rewrite Ht. }
  destruct (task_status_of t); [| |by left]; destruct (must_cancel t);
    right; try apply Hres.
  by exists (Raise cancelled).
Qed.

Lemma task_ran task env crash_send st h t :
  tasks st !! h = Some t →
  ∃ t', tasks (run_task py_repr task env crash_send st) !! h = Some t'
        ∧ task_user t' = task_user t
        ∧ task_token t' = task_token t
        ∧ (h ≠ task → t' = t)
        ∧ (is_done t = true → t' = t)
        ∧ (active t' = true → active t = true).
Proof.
  intros Ht.
  destruct (decide (h = task)) as [->|Hne].
  - destruct (active t) eqn:Hact.
    + destruct (run_task_shape task env crash_send st) as [Hsame | [r Hr]].
      * exists t. rewrite Hsame. by split_and!.
      * exists (finished r t). rewrite Hr, list_lookup_alter_eq, Ht.
        split_and!; try done.
        intros Hd. unfold active, is_done in *. by destruct (task_status_of t).
    + destruct (run_task_observes_cancel py_repr task env crash_send st t Ht Hact)
        as (t' & Ht' & Hd & Hu & Htok).
      exists t'. split_and!; try done.
      * intros Hdone. unfold run_task in Ht'. rewrite Ht in Ht'.
        unfold is_done in Hdone. destruct (task_status_of t); try done.
        rewrite Ht in Ht'. by injection Ht'.
      * unfold active, is_done in *. by destruct (task_status_of t').
  - exists t. destruct (run_task_shape task env crash_send st) as [Hsame | [r Hr]].
    + rewrite Hsame. by split_and!.
    + rewrite Hr, list_lookup_alter_ne by done. by split_and!.
Qed.

Lemma task_after_event ev st h t :
  tasks st !! h = Some t →
  ∃ t', tasks (exec py_repr ev st) !! h = Some t'
        ∧ task_user t' = task_user t
        ∧ task_token t' = task_token t
        ∧ (is_done t = true → t' = t)
        ∧ (active t' = true → active t = true).
Proof.
  intros Ht. destruct ev as [u text | u i | u | u | task env cs]; cbn [exec].
  - exists t. unfold process_tokens.
    destruct (submitted_tokens text); by split_and!.
  - exists t. unfold handle_token_actions_remove.
    case_decide; [|by split_and!].
    destruct (list_tokens u st !! Z.to_nat i); by split_and!.
  - exists t. destruct (monitoring_tasks st !! u) as [hs|] eqn:Hu.
    + rewrite start_monitoring_running by (by rewrite Hu). by split_and!.
    + rewrite start_monitoring_fresh by done. cbn [snd tasks].
      rewrite lookup_app_l by (by eapply lookup_lt_Some). by split_and!.
  - unfold stop_monitoring.
    destruct (monitoring_tasks st !! u) as [hs|]; [|exists t; by split_and!].
    cbn [snd]. unfold set_monitoring_tasks. cbn [tasks].
    rewrite cancel_all_lookup, Ht.
    case_bool_decide; [|exists t; by split_and!].
    exists (request_cancel t). cbn [fmap option_fmap option_map].
    unfold request_cancel, is_done, active.
    destruct t as [tu tt [| |r] c]; cbn; by split_and!.
  - destruct (task_ran task env cs st h t Ht) as (t' & ? & ? & ? & _ & ? & ?).
    exists t'. by split_and!.
Qed.

(** X10: a task through any run of events: it keeps its place, its user and
    its token; once done it is never touched again; and once it can no
    longer run, cancelled or done, it never runs again. *)
Theorem task_life evs st h t :
  tasks st !! h = Some t →
  ∃ t', tasks (exec_all py_repr evs st) !! h = Some t'
        ∧ task_user t' = task_user t
        ∧ task_token t' = task_token t
        ∧ (is_done t = true → t' = t)
        ∧ (active t' = true → active t = true).
Proof.
  revert st t. induction evs as [|ev evs IH]; intros st t Ht.
  - exists t. by split_and!.
  - unfold exec_all. cbn [foldl]. fold (exec_all py_repr evs (exec py_repr ev st)).
    destruct (task_after_event ev st h t Ht) as (t1 & Ht1 & Hu1 & Htok1 & Hd1 & Ha1).
    destruct (IH _ t1 Ht1) as (t' & Ht' & Hu' & Htok' & Hd' & Ha').
    exists t'. split_and!; try congruence.
    + intros Hd. specialize (Hd1 Hd). subst t1. by apply Hd'.
    + auto.
Qed.

End Bookkeeping.

(** X10 for a task that crashed: a stop, a start and further
    runs leave it as it was. *)
Lemma task_life_witness :
  let st := exec_all repr_unused
              [AddTokens 7 token_a; StartMonitoring 7;
               RunTask 0 (mkEnv reply_list reply_ok Delivered) Delivered]
              initial_state in
  let later := [StopMonitoring 7; StartMonitoring 7;
                RunTask 0 (mkEnv reply_ok reply_ok Delivered) Delivered] in
  tasks st !! 0 = Some (mkTask 7 token_a (Done (Raise name_error)) false)
  ∧ tasks (exec_all repr_unused later st) !! 0
    = Some (mkTask 7 token_a (Done (Raise name_error)) false).
Proof.
  set (st := exec_all repr_unused
               [AddTokens 7 token_a; StartMonitoring 7;
                RunTask 0 (mkEnv reply_list reply_ok Delivered) Delivered]
               initial_state).
  assert (H0 : tasks st !! 0 = Some (mkTask 7 token_a (Done (Raise name_error)) false))
    by (vm_compute; reflexivity).
  destruct (task_life repr_unused
              [StopMonitoring 7; StartMonitoring 7;
               RunTask 0 (mkEnv reply_ok reply_ok Delivered) Delivered]
              st 0 _ H0) as (t' & Ht' & _ & _ & Hd & _).
  split; [exact H0|]. cbv zeta. rewrite Ht'. f_equal. by apply Hd.
Defined.

Section Invariant.

Variable py_repr : pyval → pystr.

Lemma bookkeeping_ext st st' :
  monitoring_tasks st' = monitoring_tasks st →
  tasks st' = tasks st →
  tracked st ∧ no_stray_loop st → tracked st' ∧ no_stray_loop st'.
Proof.
  unfold tracked, no_stray_loop, handles. intros -> ->. done.
Qed.

Lemma start_keeps_bookkeeping u st :
  tracked st ∧ no_stray_loop st →
  tracked (start_monitoring u st).2 ∧ no_stray_loop (start_monitoring u st).2.
Proof.
  intros [Htr Hns].
  destruct (monitoring_tasks st !! u) as [hs|] eqn:Hu.
  { rewrite start_monitoring_running by (by rewrite Hu). done. }
  rewrite start_monitoring_fresh by done. cbn [snd].
  unfold tracked, no_stray_loop, handles. cbn [monitoring_tasks tasks].
  split.
  - intros u' hs'. destruct (decide (u' = u)) as [->|Hne].
    + rewrite lookup_insert_eq. intros [= <-]. split; [apply NoDup_seq|].
      intros h [Hlo Hhi]%elem_of_seq.
      destruct (lookup_lt_is_Some_2 (list_tokens u st) (h - length (tasks st)))
        as [tok Htok]; [lia|].
      exists (spawn u tok). split; [|done].
      rewrite lookup_app_r by lia. by rewrite list_lookup_fmap, Htok.
    + rewrite lookup_insert_ne by done. intros Hs.
      destruct (Htr u' hs' Hs) as [Hnd Hin]. split; [done|].
      intros h Hh. destruct (Hin h Hh) as (t & Ht & Hut).
      exists t. split; [|done].
      rewrite lookup_app_l; [done | by eapply lookup_lt_Some].
  - intros h t Ht Hact.
    destruct (decide (h < length (tasks st))) as [Hlt|Hge].
    + rewrite lookup_app_l in Ht by done.
      pose proof (Hns h t Ht Hact) as Hin. unfold handles in Hin.
      destruct (decide (task_user t = u)) as [Heq|Hne].
      * rewrite Heq, Hu in Hin. by apply elem_of_nil in Hin.
      * by rewrite lookup_insert_ne.
    + rewrite lookup_app_r in Ht by lia.
      rewrite list_lookup_fmap in Ht.
      destruct (list_tokens u st !! (h - length (tasks st))) as [tok|] eqn:Htok;
        [|done].
      injection Ht as <-. cbn [task_user spawn]. rewrite lookup_insert_eq.
      cbn [from_option id]. apply elem_of_seq.
      apply lookup_lt_Some in Htok. lia.
Qed.

Lemma stop_keeps_bookkeeping u st :
  tracked st ∧ no_stray_loop st →
  tracked (stop_monitoring u st).2 ∧ no_stray_loop (stop_monitoring u st).2.
Proof.
  intros [Htr Hns]. unfold stop_monitoring.
  destruct (monitoring_tasks st !! u) as [hs|] eqn:Hu; [|done].
  cbn [snd]. destruct (cancel_all_frame hs st) as (_ & Hm & _).
  unfold tracked, no_stray_loop, handles, set_monitoring_tasks.
  cbn [monitoring_tasks tasks]. rewrite Hm.
  split.
  - intros u' hs'. destruct (decide (u' = u)) as [->|Hne].
    + by rewrite lookup_delete_eq.
    + rewrite lookup_delete_ne by done. intros Hs.
      destruct (Htr u' hs' Hs) as [Hnd Hin]. split; [done|].
      intros h Hh. destruct (Hin h Hh) as (t & Ht & Hut).
      rewrite cancel_all_lookup, Ht.
      case_bool_decide; [|by exists t].
      exists (request_cancel t). split; [done|].
      unfold request_cancel. by destruct (task_status_of t).
  - intros h t. rewrite cancel_all_lookup.
    case_bool_decide as Hin.
    + destruct (tasks st !! h) as [t0|]; [|done]. intros [= <-].
      by rewrite request_cancel_inactive.
    + intros Ht Hact. pose proof (Hns h t Ht Hact) as Hh. unfold handles in Hh.
      destruct (decide (task_user t = u)) as [Heq|Hne].
      * rewrite Heq, Hu in Hh. done.
      * by rewrite lookup_delete_ne.
Qed.

Lemma run_keeps_bookkeeping task env crash_send st :
  tracked st ∧ no_stray_loop st →
  tracked (run_task py_repr task env crash_send st)
  ∧ no_stray_loop (run_task py_repr task env crash_send st).
Proof.
  intros [Htr Hns].
  destruct (run_task_tracking py_repr task env crash_send st) as (_ & Hm & Hlen).
  unfold tracked, no_stray_loop, handles. rewrite Hm. split.
  - intros u hs Hs. destruct (Htr u hs Hs) as [Hnd Hin]. split; [done|].
    intros h Hh. destruct (Hin h Hh) as (t & Ht & Hut).
    destruct (task_ran py_repr task env crash_send st h t Ht) as (t' & Ht' & Hu' & _).
    exists t'. split; [done | congruence].
  - intros h t' Ht' Hact.
    destruct (lookup_lt_is_Some_2 (tasks st) h) as [t Ht].
    { apply lookup_lt_Some in Ht'. lia. }
    destruct (task_ran py_repr task env crash_send st h t Ht)
      as (t'' & Ht'' & Hu'' & _ & _ & _ & Ha).
    rewrite Ht' in Ht''. injection Ht'' as <-.
    rewrite Hu''. apply (Hns h t Ht). by apply Ha.
Qed.

Lemma exec_keeps_bookkeeping ev st :
  tracked st ∧ no_stray_loop st →
  tracked (exec py_repr ev st) ∧ no_stray_loop (exec py_repr ev st).
Proof.
  destruct ev as [u text | u i | u | u | task env cs]; cbn [exec].
  - apply bookkeeping_ext; unfold process_tokens;
      by destruct (submitted_tokens text).
  - apply bookkeeping_ext; unfold handle_token_actions_remove;
      (case_decide; [|done]); by destruct (list_tokens u st !! Z.to_nat i).
  - apply start_keeps_bookkeeping.
  - apply stop_keeps_bookkeeping.
  - apply run_keeps_bookkeeping.
Qed.

(** X11: the bookkeeping of the supervisor, in every state the process can
    reach from its start: each handle of a session is a task of the
    event loop that belongs to the session's user, no session holds a
    handle twice, and no task that can still run is outside the
    session of its user; so no loop outlives a stop unnoticed. *)
Theorem reachable_bookkeeping evs :
  tracked (exec_all py_repr evs initial_state)
  ∧ no_stray_loop (exec_all py_repr evs initial_state).
Proof.
  assert (Hgen : ∀ st, tracked st ∧ no_stray_loop st →
            tracked (exec_all py_repr evs st) ∧ no_stray_loop (exec_all py_repr evs st)).
  { induction evs as [|ev evs IH]; intros st Hst; [done|].
    unfold exec_all. cbn [foldl]. apply IH. by apply exec_keeps_bookkeeping. }
  apply Hgen. unfold tracked, no_stray_loop, initial_state.
  cbn [monitoring_tasks tasks]. split.
  - intros u hs. by rewrite lookup_empty.
  - intros h t. by rewrite lookup_nil.
Qed.

End Invariant.

(** ** Adding tokens *)

Lemma submitted_tokens_app (a b : pystr) :
  submitted_tokens (a ++ NL :: b) = submitted_tokens a ++ submitted_tokens b.
Proof. unfold submitted_tokens. by rewrite split_lines_app, omap_app. Qed.

Lemma process_tokens_state (user_id : Z) (text : pystr) (st : State) :
  (process_tokens user_id text st).2
  = match submitted_tokens text with
    | [] => st
    | new => set_user_tokens
               (λ m, <[user_id := default [] (m !! user_id) ++ new]> m) st
    end.
Proof. unfold process_tokens. by destruct (submitted_tokens text). Qed.

(** X12: two submissions one after the other leave the process in the state
    one submission of both texts, one per line, leaves it in; the
    tokens of the first come first. *)
Theorem process_tokens_twice (user_id : Z) (a b : pystr) (st : State) :
  (process_tokens user_id b (process_tokens user_id a st).2).2
  = (process_tokens user_id (a ++ NL :: b) st).2
  ∧ list_tokens user_id (process_tokens user_id (a ++ NL :: b) st).2
    = list_tokens user_id st ++ submitted_tokens a ++ submitted_tokens b.
Proof.
  rewrite !process_tokens_state, submitted_tokens_app.
  unfold list_tokens, set_user_tokens.
  destruct (submitted_tokens a) as [|ta sa], (submitted_tokens b) as [|tb sb];
    cbn [app user_tokens monitoring_tasks tasks outbox log].
  - split; [done|]. by rewrite app_nil_r.
  - rewrite lookup_insert_eq. done.
  - rewrite !app_nil_r, lookup_insert_eq. done.
  - rewrite !lookup_insert_eq. cbn [from_option id].
    rewrite insert_insert_eq, <- !app_assoc. done.
Qed.
